(** * Session, route gate, deploy readiness and allocation check of the
      FAGE dashboard front end

    A shallow embedding of
      - [AuthProvider] of [frontend/src/contexts/AuthContext.tsx], the
        session provider,
      - the route wrappers [ProtectedRoute] and [PublicRoute] of [App.tsx],
      - [canDeploy] and the sentence it selects in the component
        [AccountSetup],
      - [saveBudget] of the component [Settings]
        ([frontend/src/pages/Settings.tsx]),
      - the route table of [App], the forms [Login] and [Register], the
        remaining handlers of [AccountSetup] and [Settings], the initials
        of [Layout] and the cards of [Dashboard],
    together with the part of the JavaScript runtime these functions call
    ([parseFloat], double arithmetic and comparison, [Number.prototype.toFixed],
    [localStorage]). *)

From Stdlib Require Import ZArith Bool List Ascii String Lia.
From Stdlib Require Import Floats.SpecFloat.
From Stdlib Require Import QArith Qabs Qround.
From Stdlib Require DecimalString.
From stdpp Require Import base option gmap strings.

Import ListNotations.
Local Open Scope Z_scope.
Local Open Scope string_scope.

(* ===================================================================== *)
(** * JavaScript numbers *)
(* ===================================================================== *)

(** A JavaScript number is an IEEE 754 binary64 value.  [spec_float] with
    precision 53 and maximal exponent 1024 is that format; its operations
    round to nearest, ties to even, as the language requires. *)
Module JsNumber.

Definition prec : Z := 53.
Definition emax : Z := 1024.

Definition number : Type := spec_float.

Definition NaN : number := S754_nan.
Definition Infinity : number := S754_infinity false.

Definition add : number -> number -> number := SFadd prec emax.
Definition sub : number -> number -> number := SFsub prec emax.
Definition mul : number -> number -> number := SFmul prec emax.
Definition neg : number -> number := SFopp.
(** [Math.abs] *)
Definition abs : number -> number := SFabs.

(** [x < y], [x > y], [x <= y]: all false as soon as one side is NaN. *)
Definition lt (x y : number) : bool := SFltb x y.
Definition gt (x y : number) : bool := SFltb y x.
Definition le (x y : number) : bool := SFleb x y.

Definition isNaN (x : number) : bool :=
  match x with S754_nan => true | _ => false end.

(** Finite in the sense of [Number.isFinite]: neither NaN nor infinite. *)
Definition isFinite (x : number) : bool :=
  match x with
  | S754_zero _ | S754_finite _ _ _ => true
  | S754_infinity _ | S754_nan => false
  end.

(** The double nearest to the positive rational [m / d]. *)
Definition ofRatio (m d : Z) : number :=
  let '(q, e, l) := SFdiv_core_binary prec emax m 0 d 0 in
  binary_round_aux prec emax false q e l.

(** The double nearest to [m * 10^e], for a positive [m]. *)
Definition ofPositiveDecimal (m : positive) (e : Z) : number :=
  match e with
  | Zneg k => ofRatio (Zpos m) (10 ^ Zpos k)
  | _ => binary_normalize prec emax (Zpos m * 10 ^ e) 0 false
  end.

(** The value of a decimal literal with digits [m] and decimal exponent
    [e]: the double nearest to [m * 10^e]. *)
Definition ofDecimal (m e : Z) : number :=
  match m with
  | Z0 => S754_zero false
  | Zpos p => ofPositiveDecimal p e
  | Zneg p => SFopp (ofPositiveDecimal p e)
  end.

Definition ofZ (n : Z) : number := binary_normalize prec emax n 0 false.

(** Decimal digits of a natural number, "0" for zero. *)
Definition decimalString (n : Z) : string :=
  DecimalString.NilZero.string_of_uint (N.to_uint (Z.to_N n)).

(** The integer nearest to the positive value [m * 2^e]; of two equally
    near integers the larger one. *)
Definition nearestInteger (m : positive) (e : Z) : Z :=
  match e with
  | Zneg k => Z.shiftr (Zpos m + 2 ^ (Zpos k - 1)) (Zpos k)
  | _ => Zpos m * 2 ^ e
  end.

Section ToFixed.
(** [Number::toString] is used by [toFixed] for finite values of
    magnitude [1e21] and more; its shortest-digits output is left to the
    runtime. *)
Variable Number_toString : number -> string.

(** [x.toFixed(0)]. *)
Definition toFixed0 (x : number) : string :=
  match x with
  | S754_nan => "NaN"
  | S754_infinity false => "Infinity"
  | S754_infinity true => "-Infinity"
  | S754_zero _ => "0"
  | S754_finite s m e =>
      let sgn := if s then "-" else "" in
      if le (ofDecimal 1 21) (S754_finite false m e)
      then sgn ++ Number_toString (S754_finite false m e)
      else sgn ++ decimalString (nearestInteger m e)
  end.
End ToFixed.

(** ** [parseFloat] *)

(** Strings are sequences of code units below 256; the white space of the
    language in that range is TAB, LF, VT, FF, CR, SP and NBSP. *)
Definition isWhiteSpace (c : ascii) : bool :=
  let n := nat_of_ascii c in
  ((9 <=? n) && (n <=? 13))%nat || (n =? 32)%nat || (n =? 160)%nat.

Fixpoint trimStart (s : string) : string :=
  match s with
  | String c r => if isWhiteSpace c then trimStart r else s
  | EmptyString => s
  end.

Definition digitOf (c : ascii) : option Z :=
  let n := nat_of_ascii c in
  if ((48 <=? n) && (n <=? 57))%nat then Some (Z.of_nat n - 48) else None.

(** The longest run of decimal digits at the start of [s]: the digits
    appended to [acc], their count added to [n], and the rest. *)
Fixpoint decimalDigits (s : string) (acc : Z) (n : nat) : Z * nat * string :=
  match s with
  | String c r =>
      match digitOf c with
      | Some d => decimalDigits r (10 * acc + d) (S n)
      | None => (acc, n, s)
      end
  | EmptyString => (acc, n, s)
  end.

(** [ExponentPart], when one starts [s]; 0 otherwise. *)
Definition exponentPart (s : string) : Z :=
  match s with
  | String c r =>
      if (Ascii.eqb c "e" || Ascii.eqb c "E")%char then
        let '(sg, r') :=
          match r with
          | String "+"%char r' => (false, r')
          | String "-"%char r' => (true, r')
          | _ => (false, r)
          end in
        let '(v, n, _) := decimalDigits r' 0 0 in
        match n with
        | O => 0
        | S _ => if sg then - v else v
        end
      else 0
  | EmptyString => 0
  end.

(** The longest prefix of [s] that is a [StrUnsignedDecimalLiteral], as
    its value; [None] when no prefix is one. *)
Definition strUnsignedDecimalLiteral (s : string) : option number :=
  if String.prefix "Infinity" s then Some Infinity
  else
    let '(i, ni, r1) := decimalDigits s 0 0 in
    match r1 with
    | String "."%char r2 =>
        let '(m, nt, r3) := decimalDigits r2 i ni in
        match nt with
        | O => None
        | S _ => Some (ofDecimal m (exponentPart r3 - Z.of_nat (nt - ni)))
        end
    | _ =>
        match ni with
        | O => None
        | S _ => Some (ofDecimal i (exponentPart r1))
        end
    end.

Definition parseFloat (s : string) : number :=
  let t := trimStart s in
  let r :=
    match t with
    | String "-"%char u => option_map neg (strUnsignedDecimalLiteral u)
    | String "+"%char u => strUnsignedDecimalLiteral u
    | _ => strUnsignedDecimalLiteral t
    end in
  match r with
  | Some x => x
  | None => NaN
  end.

End JsNumber.

(* ===================================================================== *)
(** * Shared types ([types/index.ts]) and the HTTP client *)
(* ===================================================================== *)

Record User := {
  id : string;
  email : string;
  full_name : string;
  role : string;
  is_active : bool;
  created_at : string
}.

(** [platform: 'meta' | 'google'] *)
Inductive Platform := meta | google.

Definition Platform_eqb (p q : Platform) : bool :=
  match p, q with
  | meta, meta | google, google => true
  | _, _ => false
  end.

Module AdAccount.
Record t := {
  id : string;
  client_id : string;
  platform : Platform;
  account_id : string;
  account_name : option string;
  status : string;
  created_at : string
}.
End AdAccount.

(** The three shares the settings page keeps in [allocations]. *)
Record Allocations := {
  prospecting_pct : JsNumber.number;
  retargeting_pct : JsNumber.number;
  testing_pct : JsNumber.number
}.

(** What a rejected [api] call carries: the HTTP status when the server
    answered, and [err.response?.data?.detail]. *)
Record AxiosError := {
  response_status : option Z;
  detail : option string
}.

(** Outcome of an awaited promise. *)
Inductive Settled (A : Type) :=
| Fulfilled (a : A)
| Rejected (e : AxiosError).
Arguments Fulfilled {A} a.
Arguments Rejected {A} e.

Inductive Body :=
| LoginBody (email password : string)
| RegisterBody (email password full_name : string)
| BudgetBody (a : Allocations).

Inductive Request :=
| GET (url : string)
| POST (url : string) (body : Body)
| PUT (url : string) (body : Body).

(** Truthiness of a [string | null] value: [null] and the empty string are
    falsy. *)
Definition truthy (s : option string) : bool :=
  match s with
  | Some t => negb (String.eqb t "")
  | None => false
  end.

(* ===================================================================== *)
(** * The session provider ([contexts/AuthContext.tsx]) *)
(* ===================================================================== *)

Module AuthContext.

(** The three [useState] cells of [AuthProvider]. *)
Record AuthState := {
  user : option User;
  token : option string;
  isLoading : bool
}.

(** The provider together with what it acts on: the browser's
    [localStorage], the number of [GET /auth/me] calls not yet settled,
    and the requests sent so far, oldest first. *)
Record World := {
  auth : AuthState;
  localStorage : gmap string string;
  inflight : nat;
  requests : list Request
}.

Definition setUser (u : option User) (w : World) : World :=
  {| auth := {| user := u; token := token (auth w); isLoading := isLoading (auth w) |};
     localStorage := localStorage w; inflight := inflight w; requests := requests w |}.

Definition setToken (t : option string) (w : World) : World :=
  {| auth := {| user := user (auth w); token := t; isLoading := isLoading (auth w) |};
     localStorage := localStorage w; inflight := inflight w; requests := requests w |}.

Definition setIsLoading (b : bool) (w : World) : World :=
  {| auth := {| user := user (auth w); token := token (auth w); isLoading := b |};
     localStorage := localStorage w; inflight := inflight w; requests := requests w |}.

Definition setItem (k v : string) (w : World) : World :=
  {| auth := auth w; localStorage := <[k := v]> (localStorage w);
     inflight := inflight w; requests := requests w |}.

Definition removeItem (k : string) (w : World) : World :=
  {| auth := auth w; localStorage := delete k (localStorage w);
     inflight := inflight w; requests := requests w |}.

Definition send (r : Request) (w : World) : World :=
  {| auth := auth w; localStorage := localStorage w;
     inflight := inflight w; requests := requests w ++ [r] |}.

(** [fetchUser] up to its [await]: the profile request leaves. *)
Definition fetchUser_call (w : World) : World :=
  let w := send (GET "/auth/me") w in
  {| auth := auth w; localStorage := localStorage w;
     inflight := S (inflight w); requests := requests w |}.

(** The effect on [[token]]. *)
Definition tokenEffect (w : World) : World :=
  if truthy (token (auth w)) then fetchUser_call w
  else setIsLoading false w.

(** After a handler ran, the provider renders again and the effect runs
    when [token] differs from its value at the previous render. *)
Definition rerender (prev : option string) (w : World) : World :=
  if decide (token (auth w) = prev) then w else tokenEffect w.

(** [fetchUser] from its [await] on, for the given outcome of
    [api.get('/auth/me')]. *)
Definition fetchUser_settle (res : Settled User) (w : World) : World :=
  let prev := token (auth w) in
  let w := {| auth := auth w; localStorage := localStorage w;
              inflight := pred (inflight w); requests := requests w |} in
  let w :=
    match res with
    | Fulfilled data => setUser (Some data) w
    | Rejected _ =>
        setUser None (setToken None (removeItem "fage_token" w))
    end in
  rerender prev (setIsLoading false w).

Definition login (email password : string) (res : Settled string)
    (w : World) : World * Settled unit :=
  let prev := token (auth w) in
  let w := send (POST "/auth/login" (LoginBody email password)) w in
  match res with
  | Rejected e => (w, Rejected e)
  | Fulfilled newToken =>
      let w := setItem "fage_token" newToken w in
      let w := setToken (Some newToken) w in
      (rerender prev w, Fulfilled tt)
  end.

Definition register (email password fullName : string) (res : Settled string)
    (w : World) : World * Settled unit :=
  let prev := token (auth w) in
  let w := send (POST "/auth/register" (RegisterBody email password fullName)) w in
  match res with
  | Rejected e => (w, Rejected e)
  | Fulfilled newToken =>
      let w := setItem "fage_token" newToken w in
      let w := setToken (Some newToken) w in
      (rerender prev w, Fulfilled tt)
  end.

Definition logout (w : World) : World :=
  let prev := token (auth w) in
  let w := removeItem "fage_token" w in
  let w := setToken None w in
  let w := setUser None w in
  rerender prev w.

(** Mounting the provider on a browser whose storage is [ls]: the initial
    values of the state cells, then the first run of the effect. *)
Definition AuthProvider (ls : gmap string string) : World :=
  tokenEffect
    {| auth := {| user := None; token := ls !! "fage_token"; isLoading := true |};
       localStorage := ls; inflight := 0; requests := [] |}.

(** What can happen to a mounted provider. *)
Inductive Event :=
| Login (email password : string) (res : Settled string)
| Register (email password fullName : string) (res : Settled string)
| Logout
| ProfileSettled (res : Settled User).

(** A profile request can only settle while one is outstanding. *)
Definition step (w : World) (ev : Event) : option World :=
  match ev with
  | Login e p res => Some (fst (login e p res w))
  | Register e p n res => Some (fst (register e p n res w))
  | Logout => Some (logout w)
  | ProfileSettled res =>
      match inflight w with
      | O => None
      | S _ => Some (fetchUser_settle res w)
      end
  end.

Fixpoint run (w : World) (evs : list Event) : option World :=
  match evs with
  | [] => Some w
  | ev :: evs' =>
      match step w ev with
      | Some w' => run w' evs'
      | None => None
      end
  end.

Definition isProfileSettled (ev : Event) : bool :=
  match ev with
  | ProfileSettled _ => true
  | _ => false
  end.

(** A step that does not clear the session under a profile request that
    is still outstanding: [logout] with none in flight, a failed profile
    request that was the only one in flight; anything else. *)
Definition undisturbed (w : World) (ev : Event) : bool :=
  match ev with
  | Logout => Nat.eqb (inflight w) 0
  | ProfileSettled (Rejected _) => Nat.eqb (inflight w) 1
  | _ => true
  end.

(** [run], refusing every step that is not [undisturbed]. *)
Fixpoint run_undisturbed (w : World) (evs : list Event) : option World :=
  match evs with
  | [] => Some w
  | ev :: evs' =>
      if undisturbed w ev then
        match step w ev with
        | Some w' => run_undisturbed w' evs'
        | None => None
        end
      else None
  end.

(** What the undisturbed steps keep: a user comes with a token, and so
    does an outstanding profile request. *)
Definition tokenBacked (w : World) : Prop :=
  (forall u, user (auth w) = Some u -> exists t, token (auth w) = Some t)
  /\ ((0 < inflight w)%nat -> exists t, token (auth w) = Some t).

End AuthContext.

(* ===================================================================== *)
(** * The route wrappers ([App.tsx]) *)
(* ===================================================================== *)

Module App.
Import AuthContext.

(** What a route wrapper returns. *)
Inductive Element :=
| Spinner                                   (* <div className="loading-spinner"> *)
| Navigate (to : string) (replace : bool)   (* <Navigate to=.. replace /> *)
| Children.                                 (* <>{children}</> *)

Definition ProtectedRoute (a : AuthState) : Element :=
  if isLoading a then Spinner
  else
    match user a with
    | None => Navigate "/login" true
    | Some _ => Children
    end.

Definition PublicRoute (a : AuthState) : Element :=
  if isLoading a then Spinner
  else
    match user a with
    | Some _ => Navigate "/dashboard" true
    | None => Children
    end.

(** ** The gate as the specification words it *)

Inductive Visibility := public | protected.

Inductive Decision :=
| render_loading
| render_content
| redirect_to_login
| redirect_to_dashboard.

(** The states of a session: [Unauthenticated] (no token), [Authenticating]
    (a token, not yet validated by a profile), [Authenticated] (token
    present, profile resolved). *)
Inductive SessionState := Unauthenticated | Authenticating | Authenticated.

Definition sessionState (a : AuthState) : SessionState :=
  match token a with
  | None => Unauthenticated
  | Some _ =>
      match user a with
      | Some _ => Authenticated
      | None => Authenticating
      end
  end.

(** The decision table: loading first; a protected route with an
    unauthenticated session goes to the login page; a public route with an
    authenticated session goes to the dashboard; otherwise the content. *)
Definition AuthGate (a : AuthState) (v : Visibility) : Decision :=
  if isLoading a then render_loading
  else
    match v, sessionState a with
    | protected, Unauthenticated => redirect_to_login
    | public, Authenticated => redirect_to_dashboard
    | _, _ => render_content
    end.

(** The wrapper that [App] puts around the routes of each class. *)
Definition wrapper (v : Visibility) : AuthState -> Element :=
  match v with
  | public => PublicRoute
  | protected => ProtectedRoute
  end.

(** How a decision shows: both redirects replace the history entry. *)
Definition enact (d : Decision) : Element :=
  match d with
  | render_loading => Spinner
  | render_content => Children
  | redirect_to_login => Navigate "/login" true
  | redirect_to_dashboard => Navigate "/dashboard" true
  end.

End App.

(* ===================================================================== *)
(** * The deploy gate ([pages/AccountSetup.tsx]) *)
(* ===================================================================== *)

Module AccountSetup.

Definition isConnected (a : AdAccount.t) : bool :=
  String.eqb (AdAccount.status a) "connected".

Definition metaConnected (accounts : list AdAccount.t) : bool :=
  existsb (fun a => Platform_eqb (AdAccount.platform a) meta && isConnected a) accounts.

Definition googleConnected (accounts : list AdAccount.t) : bool :=
  existsb (fun a => Platform_eqb (AdAccount.platform a) google && isConnected a) accounts.

(** [budget] is the text of the budget field. *)
Definition canDeploy (accounts : list AdAccount.t) (budget : string) : bool :=
  (metaConnected accounts || googleConnected accounts)
  && JsNumber.gt (JsNumber.parseFloat budget) (JsNumber.ofZ 0).

(** The sentence under "Ready to Launch?". *)
Definition deployMessage (accounts : list AdAccount.t) (budget : string) : string :=
  if canDeploy accounts budget
  then "Credentials saved and platforms authorized. Launch automation now."
  else "Save credentials, authorize platforms, and set a budget to launch.".

(** ** The three ways of not being ready, as the specification lists them *)

Inductive Failure := no_connected_platform | no_budget_set | both_missing.

Definition connectedCount (accounts : list AdAccount.t) : nat :=
  length (filter isConnected accounts).

Definition budgetPositive (budget : string) : bool :=
  JsNumber.gt (JsNumber.parseFloat budget) (JsNumber.ofZ 0).

(** [None] when nothing is missing. *)
Definition failureOf (accounts : list AdAccount.t) (budget : string) : option Failure :=
  match Nat.leb 1 (connectedCount accounts), budgetPositive budget with
  | true, true => None
  | false, true => Some no_connected_platform
  | true, false => Some no_budget_set
  | false, false => Some both_missing
  end.

End AccountSetup.

(* ===================================================================== *)
(** * Saving the allocation ([pages/Settings.tsx]) *)
(* ===================================================================== *)

Module Settings.

(** The [message] cell. *)
Record Message := { type : string; text : string }.

Definition total (a : Allocations) : JsNumber.number :=
  JsNumber.add (JsNumber.add (prospecting_pct a) (retargeting_pct a)) (testing_pct a).

(** [Math.abs(total - 1) > 0.01] *)
Definition offTarget (a : Allocations) : bool :=
  JsNumber.gt (JsNumber.abs (JsNumber.sub (total a) (JsNumber.ofZ 1)))
              (JsNumber.ofDecimal 1 (-2)).

(** [a || b] on [string | undefined]. *)
Definition orElse (a : option string) (b : string) : string :=
  match a with
  | Some s => if String.eqb s "" then b else s
  | None => b
  end.

Section SaveBudget.
Variable Number_toString : JsNumber.number -> string.

Definition percent (x : JsNumber.number) : string :=
  JsNumber.toFixed0 Number_toString (JsNumber.mul x (JsNumber.ofZ 100)).

(** One click on "Save Allocations": the requests it sends and the
    message it leaves, given how the server would answer the [PUT].
    (Three seconds after a success the message is cleared by a timer.) *)
Definition saveBudget (allocations : Allocations) (res : Settled unit)
    : list Request * Message :=
  if offTarget allocations then
    ([],
     {| type := "error";
        text := "Allocations must sum to 100% (currently "
                ++ percent (total allocations) ++ "%)" |})
  else
    let sent := [PUT "/clients/me/budget" (BudgetBody allocations)] in
    match res with
    | Fulfilled _ =>
        (sent, {| type := "success"; text := "Budget allocations saved!" |})
    | Rejected err =>
        (sent, {| type := "error"; text := orElse (detail err) "Failed to save" |})
    end.
End SaveBudget.

(** ** The validator as the specification words it *)

(** [abs(total - 1) <= 0.01], in the arithmetic of the program. *)
Definition withinTolerance (a : Allocations) : bool :=
  JsNumber.le (JsNumber.abs (JsNumber.sub (total a) (JsNumber.ofZ 1)))
              (JsNumber.ofDecimal 1 (-2)).

(** The shares of an allocation are proper numbers. *)
Definition finiteShares (a : Allocations) : bool :=
  JsNumber.isFinite (prospecting_pct a)
  && JsNumber.isFinite (retargeting_pct a)
  && JsNumber.isFinite (testing_pct a).

(** ** The validator in exact arithmetic *)

(** The rational number a finite double stands for. *)
Definition exactValue (x : JsNumber.number) : option Q :=
  match x with
  | S754_zero _ => Some 0%Q
  | S754_finite s m e =>
      let q := match e with
               | Zneg k => Qmake (Zpos m) (2 ^ k)%positive
               | _ => inject_Z (Zpos m * 2 ^ e)
               end in
      Some (if s then Qopp q else q)
  | S754_infinity _ | S754_nan => None
  end.

(** [prospecting + retargeting + testing], without rounding. *)
Definition exactTotal (a : Allocations) : option Q :=
  match exactValue (prospecting_pct a), exactValue (retargeting_pct a),
        exactValue (testing_pct a) with
  | Some p, Some r, Some t => Some (p + r + t)%Q
  | _, _, _ => None
  end.

(** [abs(total - 1) <= 0.01], without rounding; a total that is not a
    number is not within the tolerance. *)
Definition exactlyWithinTolerance (a : Allocations) : bool :=
  match exactTotal a with
  | Some q => Qle_bool (Qabs (q - 1)) (1 # 100)
  | None => false
  end.

(** The total as a whole percent: the integer nearest to [total * 100],
    without rounding on the way. *)
Definition exactPercent (a : Allocations) : option Z :=
  match exactTotal a with
  | Some q => Some (Qfloor (q * 100 + (1 # 2)))
  | None => None
  end.

(** [n] is the integer nearest to [m * 2^e], the larger one of two:
    [n - 1/2 <= m * 2^e < n + 1/2]. *)
Definition isNearestInteger (n : Z) (m : positive) (e : Z) : Prop :=
  match e with
  | Zneg k => (2 * n - 1) * 2 ^ Zpos k <= 2 * Zpos m < (2 * n + 1) * 2 ^ Zpos k
  | _ => n = Zpos m * 2 ^ e
  end.

(** The values a slider of the page can take ([min="0" max="1"
    step="0.05"], read with [parseFloat]): the doubles nearest to
    [k / 20], for [k] from 0 to 20. *)
Definition sliderValue (k : nat) : JsNumber.number :=
  JsNumber.ofDecimal (Z.of_nat (5 * k)) (-2).

Definition sliderShares (k1 k2 k3 : nat) : Allocations :=
  {| prospecting_pct := sliderValue k1;
     retargeting_pct := sliderValue k2;
     testing_pct := sliderValue k3 |}.

End Settings.

(* ===================================================================== *)
(** * The route table ([App]) *)
(* ===================================================================== *)

Module AppRoutes.
Import AuthContext App.

(** Where the router matched the address: one of the declared paths, or
    the catch-all [*]. *)
Inductive Location :=
| at_login | at_register | at_root
| at_dashboard | at_setup | at_campaigns | at_settings
| at_unmatched.

Inductive Screen :=
| LoginScreen | RegisterScreen
| DashboardScreen | AccountSetupScreen | CampaignInsightsScreen | SettingsScreen.

(** What ends up on the page. *)
Inductive View :=
| ShowSpinner
| Show (s : Screen)
| Redirect (to : string) (replace : bool).

(** A wrapper around its children. *)
Definition wrap (e : Element) (children : View) : View :=
  match e with
  | Spinner => ShowSpinner
  | Navigate to replace => Redirect to replace
  | Children => children
  end.

(** The [<Routes>] element.  [Layout] shows the matched child route in its
    [<Outlet />]; at [/] that is the index route. *)
Definition Routes (loc : Location) (a : AuthState) : View :=
  match loc with
  | at_login => wrap (PublicRoute a) (Show LoginScreen)
  | at_register => wrap (PublicRoute a) (Show RegisterScreen)
  | at_root => wrap (ProtectedRoute a) (Redirect "/dashboard" true)
  | at_dashboard => wrap (ProtectedRoute a) (Show DashboardScreen)
  | at_setup => wrap (ProtectedRoute a) (Show AccountSetupScreen)
  | at_campaigns => wrap (ProtectedRoute a) (Show CampaignInsightsScreen)
  | at_settings => wrap (ProtectedRoute a) (Show SettingsScreen)
  | at_unmatched => Redirect "/dashboard" true
  end.

(** The route a redirect target of this file leads to. *)
Definition locate (to : string) : option Location :=
  if String.eqb to "/login" then Some at_login
  else if String.eqb to "/dashboard" then Some at_dashboard
  else None.

(** Following redirects, at most [hops] of them. *)
Fixpoint settle (hops : nat) (loc : Location) (a : AuthState) : option View :=
  match Routes loc a with
  | Redirect to _ =>
      match hops with
      | O => None
      | S h =>
          match locate to with
          | Some l => settle h l a
          | None => None
          end
      end
  | v => Some v
  end.

Definition isProtected (s : Screen) : bool :=
  match s with
  | LoginScreen | RegisterScreen => false
  | _ => true
  end.

End AppRoutes.

(* ===================================================================== *)
(** * The sign-in and sign-up forms ([Login], [Register]) *)
(* ===================================================================== *)

Module LoginPage.
Import AuthContext.

(** The [error] and [loading] cells of the form. *)
Record FormState := { error : string; loading : bool }.

(** [handleSubmit] up to its [await]. *)
Definition handleSubmit_pending : FormState := {| error := ""; loading := true |}.

(** [handleSubmit], for the given answer of the login endpoint. *)
Definition handleSubmit (email password : string) (res : Settled string)
    (w : World) : World * FormState :=
  let '(w', r) := login email password res w in
  match r with
  | Fulfilled _ => (w', {| error := ""; loading := false |})
  | Rejected err =>
      (w', {| error := Settings.orElse (detail err) "Invalid credentials";
              loading := false |})
  end.

End LoginPage.

Module RegisterPage.
Import AuthContext.

Record FormState := { error : string; loading : bool }.

Definition handleSubmit_pending : FormState := {| error := ""; loading := true |}.

Definition handleSubmit (email password fullName : string) (res : Settled string)
    (w : World) : World * FormState :=
  let '(w', r) := register email password fullName res w in
  match r with
  | Fulfilled _ => (w', {| error := ""; loading := false |})
  | Rejected err =>
      (w', {| error := Settings.orElse (detail err) "Registration failed";
              loading := false |})
  end.

End RegisterPage.

(* ===================================================================== *)
(** * The other handlers of [AccountSetup] *)
(* ===================================================================== *)

Module AccountSetupPage.
Import Settings.

(** The effect on [searchParams]: what the query parameters [meta],
    [google] and [msg] of the address make of the message. *)
Definition callbackMessage (metaParam googleParam msgParam : option string)
    (message : Message) : Message :=
  let message :=
    if decide (metaParam = Some "connected")
    then {| type := "success"; text := "Meta Ads connected successfully!" |}
    else message in
  let message :=
    if decide (googleParam = Some "connected")
    then {| type := "success"; text := "Google Ads connected successfully!" |}
    else message in
  if decide (metaParam = Some "error" \/ googleParam = Some "error")
  then {| type := "error";
          text := "Connection failed: " ++ orElse msgParam "Unknown error" |}
  else message.

(** Truthiness of a number: NaN and both zeros are falsy. *)
Definition truthyNumber (x : JsNumber.number) : bool :=
  match x with
  | S754_nan | S754_zero _ => false
  | _ => true
  end.

(** [x || d] on numbers. *)
Definition numberOr (x d : JsNumber.number) : JsNumber.number :=
  if truthyNumber x then x else d.

(** The text fields of the page. *)
Record Fields := {
  budget : string;
  country : string;
  metaAppId : string;
  metaAppSecret : string;
  googleClientId : string;
  googleClientSecret : string;
  googleDevToken : string;
  ga4Id : string
}.

(** The body of [PUT /clients/me]. *)
Module Body.
Record t := {
  monthly_budget : JsNumber.number;
  country : string;
  meta_app_id : string;
  meta_app_secret : string;
  google_client_id : string;
  google_client_secret : string;
  google_developer_token : string;
  ga4_property_id : string
}.
End Body.

Definition settingsBody (f : Fields) : Body.t :=
  {| Body.monthly_budget := numberOr (JsNumber.parseFloat (budget f)) (JsNumber.ofZ 0);
     Body.country := country f;
     Body.meta_app_id := metaAppId f;
     Body.meta_app_secret := metaAppSecret f;
     Body.google_client_id := googleClientId f;
     Body.google_client_secret := googleClientSecret f;
     Body.google_developer_token := googleDevToken f;
     Body.ga4_property_id := ga4Id f |}.

(** [saveSettings]: the body it sends and the message it leaves. *)
Definition saveSettings (f : Fields) (res : Settled unit) : Body.t * Message :=
  (settingsBody f,
   match res with
   | Fulfilled _ => {| type := "success"; text := "Settings saved!" |}
   | Rejected err =>
       {| type := "error"; text := orElse (detail err) "Failed to save settings" |}
   end).

(** What [GET /clients/me] delivers, as far as the page reads it. *)
Module ClientData.
Record t := {
  monthly_budget : JsNumber.number;
  country : option string;
  meta_app_id : option string;
  meta_app_secret : option string;
  google_client_id : option string;
  google_client_secret : option string;
  google_developer_token : option string;
  ga4_property_id : option string
}.
End ClientData.

Module AutomationStatus.
Record t := {
  automation_status : string;
  monthly_budget : JsNumber.number;
  country : string;
  connected_meta : JsNumber.number;
  connected_google : JsNumber.number
}.
End AutomationStatus.

(** The cells that [fetchData] fills. *)
Record LoadState := {
  client : option ClientData.t;
  accounts : list AdAccount.t;
  automationStatus : option AutomationStatus.t;
  fields : Fields;
  loading : bool
}.

(** The initial values of the cells. *)
Definition initial : LoadState :=
  {| client := None; accounts := []; automationStatus := None;
     fields := {| budget := ""; country := "US"; metaAppId := ""; metaAppSecret := "";
                  googleClientId := ""; googleClientSecret := "";
                  googleDevToken := ""; ga4Id := "" |};
     loading := true |}.

Section FetchData.
(** [String(x)] on a number is [Number::toString], left to the runtime. *)
Variable Number_toString : JsNumber.number -> string.

(** [String(d.monthly_budget || '')] *)
Definition budgetText (monthly_budget : JsNumber.number) : string :=
  if truthyNumber monthly_budget then Number_toString monthly_budget else "".

(** [fetchData], for the given answers to the three requests it awaits
    together: when any of them fails the [catch] swallows the failure. *)
Definition fetchData (clientRes : Settled ClientData.t)
    (accountsRes : Settled (list AdAccount.t))
    (statusRes : Settled AutomationStatus.t) (st : LoadState) : LoadState :=
  match clientRes, accountsRes, statusRes with
  | Fulfilled d, Fulfilled accs, Fulfilled status =>
      {| client := Some d;
         accounts := accs;
         automationStatus := Some status;
         fields :=
           {| budget := budgetText (ClientData.monthly_budget d);
              country := orElse (ClientData.country d) "US";
              metaAppId := orElse (ClientData.meta_app_id d) "";
              metaAppSecret := orElse (ClientData.meta_app_secret d) "";
              googleClientId := orElse (ClientData.google_client_id d) "";
              googleClientSecret := orElse (ClientData.google_client_secret d) "";
              googleDevToken := orElse (ClientData.google_developer_token d) "";
              ga4Id := orElse (ClientData.ga4_property_id d) "" |};
         loading := false |}
  | _, _, _ =>
      {| client := client st; accounts := accounts st;
         automationStatus := automationStatus st; fields := fields st;
         loading := false |}
  end.
End FetchData.

(** The [deploying] and [message] cells, with the addresses posted to. *)
Record DeployState := {
  deploying : bool;
  message : Message;
  posted : list string;
  refetched : bool
}.

(** [deployAutomation], for the given answer of the deploy endpoint. *)
Definition deployAutomation (res : Settled unit) (st : DeployState) : DeployState :=
  let posted := (posted st ++ ["/automation/deploy"])%list in
  match res with
  | Fulfilled _ =>
      {| deploying := false;
         message := {| type := "success"; text := "Automation deployed successfully! 🚀" |};
         posted := posted; refetched := true |}
  | Rejected err =>
      {| deploying := false;
         message := {| type := "error"; text := orElse (detail err) "Deployment failed" |};
         posted := posted; refetched := refetched st |}
  end.

(** [disabled={!canDeploy || deploying}] *)
Definition deployDisabled (accounts : list AdAccount.t) (budget : string)
    (st : DeployState) : bool :=
  negb (AccountSetup.canDeploy accounts budget) || deploying st.

(** A click on "Deploy Automation": a disabled button does nothing. *)
Definition clickDeploy (accounts : list AdAccount.t) (budget : string)
    (res : Settled unit) (st : DeployState) : DeployState :=
  if deployDisabled accounts budget st then st else deployAutomation res st.

End AccountSetupPage.

(* ===================================================================== *)
(** * The rest of [Settings] *)
(* ===================================================================== *)

Module Client.
Record t := {
  id : string;
  user_id : string;
  company_name : string;
  website : option string;
  country : string;
  industry : option string;
  monthly_budget : JsNumber.number;
  currency : string;
  automation_status : string;
  is_active : bool;
  created_at : string
}.
End Client.

Module BudgetSettings.
Record t := {
  id : string;
  client_id : string;
  monthly_cap : JsNumber.number;
  current_month_spend : JsNumber.number;
  prospecting_pct : JsNumber.number;
  retargeting_pct : JsNumber.number;
  testing_pct : JsNumber.number
}.
End BudgetSettings.

Module SettingsPage.
Import Settings.

Record Form := {
  company_name : string;
  website : string;
  industry : string
}.

(** The state cells of the page. *)
Record PageState := {
  client : option Client.t;
  budget : option BudgetSettings.t;
  form : Form;
  allocations : Allocations;
  message : Message;
  loading : bool
}.

(** The initial values of the cells. *)
Definition initial : PageState :=
  {| client := None;
     budget := None;
     form := {| company_name := ""; website := ""; industry := "" |};
     allocations :=
       {| prospecting_pct := JsNumber.ofDecimal 50 (-2);
          retargeting_pct := JsNumber.ofDecimal 35 (-2);
          testing_pct := JsNumber.ofDecimal 15 (-2) |};
     message := {| type := ""; text := "" |};
     loading := true |}.

(** [fetchData], for the given answers to the two requests it awaits
    together: when either fails the [catch] swallows the failure. *)
Definition fetchData (clientRes : Settled Client.t)
    (budgetRes : Settled BudgetSettings.t) (st : PageState) : PageState :=
  match clientRes, budgetRes with
  | Fulfilled c, Fulfilled b =>
      {| client := Some c;
         budget := Some b;
         form :=
           {| company_name := orElse (Some (Client.company_name c)) "";
              website := orElse (Client.website c) "";
              industry := orElse (Client.industry c) "" |};
         allocations :=
           {| prospecting_pct := BudgetSettings.prospecting_pct b;
              retargeting_pct := BudgetSettings.retargeting_pct b;
              testing_pct := BudgetSettings.testing_pct b |};
         message := message st;
         loading := false |}
  | _, _ =>
      {| client := client st; budget := budget st; form := form st;
         allocations := allocations st; message := message st;
         loading := false |}
  end.

(** [saveCompany]: the form it sends and the message it leaves. *)
Definition saveCompany (f : Form) (res : Settled unit) : Form * Message :=
  (f,
   match res with
   | Fulfilled _ => {| type := "success"; text := "Company info saved!" |}
   | Rejected err => {| type := "error"; text := orElse (detail err) "Failed to save" |}
   end).

(** The test that colours the total under the sliders:
    [Math.abs(p + r + t - 1) < 0.01]. *)
Definition totalLooksRight (a : Allocations) : bool :=
  JsNumber.lt (JsNumber.abs (JsNumber.sub (total a) (JsNumber.ofZ 1)))
              (JsNumber.ofDecimal 1 (-2)).

End SettingsPage.

(* ===================================================================== *)
(** * The side bar ([Layout]) *)
(* ===================================================================== *)

Module Layout.

(** [s.split(' ')]: the pieces between single spaces; never empty. *)
Fixpoint split_space (s : string) : list string :=
  match s with
  | EmptyString => [EmptyString]
  | String c r =>
      if Ascii.eqb c " " then EmptyString :: split_space r
      else
        match split_space r with
        | piece :: rest => String c piece :: rest
        | [] => [String c EmptyString]
        end
  end.

(** [n[0]], as [join] shows it: nothing for the empty piece. *)
Definition firstOf (n : string) : string :=
  match n with
  | EmptyString => EmptyString
  | String c _ => String c EmptyString
  end.

(** [name.split(' ').map(n => n[0]).join('')] *)
Definition firstLetters (name : string) : string :=
  String.concat "" (List.map firstOf (split_space name)).

Section Initials.
(** [String.prototype.toUpperCase] is left to the runtime. *)
Variable toUpperCase : string -> string.

Definition initials (user : option User) : string :=
  match user with
  | Some u =>
      if String.eqb (full_name u) "" then "?"
      else String.substring 0 2 (toUpperCase (firstLetters (full_name u)))
  | None => "?"
  end.
End Initials.

End Layout.

(* ===================================================================== *)
(** * The dashboard ([Dashboard]) *)
(* ===================================================================== *)

(** [toFixed] with fraction digits, [/] and [>=] on numbers. *)
Module NumberFormat.
Import JsNumber.

Definition div : number -> number -> number := SFdiv prec emax.

(** [x >= y] *)
Definition ge (x y : number) : bool := SFleb y x.

Fixpoint zeros (n : nat) : string :=
  match n with
  | O => EmptyString
  | S k => String "0" (zeros k)
  end.

(** The integer nearest to [m * 2^e * 10^f]; of two equally near integers
    the larger one. *)
Definition scaledInteger (f : nat) (m : positive) (e : Z) : Z :=
  nearestInteger (Z.to_pos (Zpos m * 10 ^ Z.of_nat f)) e.

(** The digits of the scaled integer with the decimal point put [f] places
    from the right, after padding with zeros to [f + 1] digits. *)
Definition withPoint (f : nat) (digits : string) : string :=
  match f with
  | O => digits
  | S _ =>
      let d := zeros (S f - String.length digits) ++ digits in
      let k := String.length d in
      String.substring 0 (k - f) d ++ "." ++ String.substring (k - f) f d
  end.

Section ToFixed.
Variable Number_toString : number -> string.

(** [x.toFixed(f)], for [f] from 0 to 100 (beyond that the runtime throws;
    the calls of this program pass 0, 1 and 2). *)
Definition toFixed (f : nat) (x : number) : string :=
  match x with
  | S754_nan => "NaN"
  | S754_infinity false => "Infinity"
  | S754_infinity true => "-Infinity"
  | S754_zero _ => withPoint f "0"
  | S754_finite s m e =>
      let sgn := if s then "-" else "" in
      if le (ofDecimal 1 21) (S754_finite false m e)
      then sgn ++ Number_toString (S754_finite false m e)
      else sgn ++ withPoint f (decimalString (scaledInteger f m e))
  end.
End ToFixed.

End NumberFormat.

Module MetricsSummary.
Record t := {
  total_spend : JsNumber.number;
  total_revenue : JsNumber.number;
  total_conversions : JsNumber.number;
  avg_roas : JsNumber.number;
  avg_cpa : JsNumber.number;
  avg_ctr : JsNumber.number;
  budget_usage_pct : JsNumber.number;
  monthly_budget : JsNumber.number
}.
End MetricsSummary.

Module DailyMetricPoint.
Record t := {
  date : string;
  spend : JsNumber.number;
  revenue : JsNumber.number;
  conversions : JsNumber.number;
  roas : JsNumber.number;
  cpa : JsNumber.number;
  clicks : JsNumber.number;
  impressions : JsNumber.number
}.
End DailyMetricPoint.

Module TopCampaign.
Record t := {
  campaign_id : string;
  name : string;
  platform : string;
  spend : JsNumber.number;
  revenue : JsNumber.number;
  roas : JsNumber.number;
  conversions : JsNumber.number;
  status : string
}.
End TopCampaign.

Module DashboardOverview.
Record t := {
  summary : MetricsSummary.t;
  daily_metrics : list DailyMetricPoint.t;
  top_campaigns : list TopCampaign.t;
  automation_status : string;
  recent_actions : JsNumber.number
}.
End DashboardOverview.

Module Dashboard.
Import JsNumber NumberFormat.

(** The [data] and [loading] cells. *)
Record PageState := {
  data : option DashboardOverview.t;
  loading : bool
}.

(** [fetchDashboard], for the given answer of the overview endpoint. *)
Definition fetchDashboard (res : Settled DashboardOverview.t) (st : PageState)
    : PageState :=
  {| data := match res with
             | Fulfilled d => Some d
             | Rejected _ => None
             end;
     loading := false |}.

(** [data?.summary || { ...zeros }] *)
Definition summary (data : option DashboardOverview.t) : MetricsSummary.t :=
  match data with
  | Some d => DashboardOverview.summary d
  | None =>
      {| MetricsSummary.total_spend := ofZ 0;
         MetricsSummary.total_revenue := ofZ 0;
         MetricsSummary.total_conversions := ofZ 0;
         MetricsSummary.avg_roas := ofZ 0;
         MetricsSummary.avg_cpa := ofZ 0;
         MetricsSummary.avg_ctr := ofZ 0;
         MetricsSummary.budget_usage_pct := ofZ 0;
         MetricsSummary.monthly_budget := ofZ 0 |}
  end.

Section Format.
Variable Number_toString : number -> string.

Definition formatCurrency (val : number) : string :=
  if ge val (ofZ 1000)
  then "$" ++ toFixed Number_toString 1 (div val (ofZ 1000)) ++ "k"
  else "$" ++ toFixed Number_toString 2 val.

(** The six metric cards, as shown (the conversions card, printed in the
    reader's locale, apart). *)
Record Cards := {
  spendCard : string;
  revenueCard : string;
  roasCard : string;
  cpaCard : string;
  budgetUsageCard : string
}.

Definition cards (st : PageState) : Cards :=
  let s := summary (data st) in
  {| spendCard := formatCurrency (MetricsSummary.total_spend s);
     revenueCard := formatCurrency (MetricsSummary.total_revenue s);
     roasCard := toFixed Number_toString 2 (MetricsSummary.avg_roas s) ++ "x";
     cpaCard := formatCurrency (MetricsSummary.avg_cpa s);
     budgetUsageCard :=
       toFixed Number_toString 0 (MetricsSummary.budget_usage_pct s) ++ "%" |}.
End Format.

(** The colour of a campaign's ROAS in the table. *)
Definition roasColor (roas : number) : string :=
  if ge roas (ofZ 3) then "var(--accent-400)"
  else if ge roas (ofZ 1) then "var(--warn-400)"
  else "var(--danger-400)".

End Dashboard.

(* ===================================================================== *)
(** * Fixtures used in examples *)
(* ===================================================================== *)

Definition sampleUser : User :=
  {| id := "u1"; email := "ana@example.com"; full_name := "Ana Lima";
     role := "client"; is_active := true; created_at := "2024-01-01T00:00:00Z" |}.

(** The profile endpoint refusing a token. *)
Definition unauthorized : AxiosError :=
  {| response_status := Some 401; detail := Some "Could not validate credentials" |}.

Definition sampleAccount (p : Platform) (st : string) : AdAccount.t :=
  {| AdAccount.id := "a1"; AdAccount.client_id := "c1"; AdAccount.platform := p;
     AdAccount.account_id := "act_1"; AdAccount.account_name := None;
     AdAccount.status := st; AdAccount.created_at := "2024-01-01T00:00:00Z" |}.

Definition shares (p r t : string) : Allocations :=
  {| prospecting_pct := JsNumber.parseFloat p;
     retargeting_pct := JsNumber.parseFloat r;
     testing_pct := JsNumber.parseFloat t |}.

(** Characters that can begin the text [parseFloat] reads as a number:
    white space (skipped), a digit, a sign, the decimal point, and the [I]
    of [Infinity]. *)
Definition canStartNumber (c : ascii) : bool :=
  JsNumber.isWhiteSpace c
  || match JsNumber.digitOf c with Some _ => true | None => false end
  || Ascii.eqb c "+" || Ascii.eqb c "-" || Ascii.eqb c "." || Ascii.eqb c "I".

(* ===================================================================== *)
(** * Facts about numbers *)
(* ===================================================================== *)

Section NumberFacts.
Import JsNumber.

Lemma compare_cont_swap (p q : positive) :
  Pos.compare_cont Eq q p = CompOpp (Pos.compare_cont Eq p q).
Proof. now rewrite (Pos.compare_cont_antisym p q Eq). Qed.

(** Comparing the other way round gives the opposite answer. *)
Lemma SFcompare_swap (x y : number) :
  SFcompare y x = option_map CompOpp (SFcompare x y).
Proof.
  destruct x as [sx|sx| |sx mx ex], y as [sy|sy| |sy my ey]; cbn;
    try reflexivity;
    try (destruct sx; reflexivity); try (destruct sy; reflexivity);
    try (destruct sx, sy; reflexivity).
  rewrite (Z.compare_antisym ex ey), (compare_cont_swap mx my).
  destruct sx, sy; cbn; try reflexivity; f_equal;
    destruct (Z.compare ex ey); cbn; try reflexivity.
Qed.

(** Away from NaN, [<=] is the negation of [>]. *)
Lemma le_not_gt (x y : number) :
  isNaN x = false -> isNaN y = false -> le x y = negb (gt x y).
Proof.
  intros Hx Hy. unfold le, gt, SFleb, SFltb.
  rewrite (SFcompare_swap x y).
  destruct (SFcompare x y) as [[]|] eqn:E; cbn; try reflexivity.
  destruct x, y; discriminate.
Qed.

(** With NaN on one side every comparison is false. *)
Lemma gt_NaN_l (y : number) : gt NaN y = false.
Proof. destruct y; reflexivity. Qed.

Lemma le_NaN_l (y : number) : le NaN y = false.
Proof. reflexivity. Qed.

(** *** Rounding never invents a NaN *)

Lemma shr_1_nonneg (r : shr_record) : 0 <= shr_m r -> 0 <= shr_m (shr_1 r).
Proof.
  destruct r as [m b s]; cbn. destruct m as [|[p|p|]|p]; cbn; lia.
Qed.

Lemma iter_shr_1_nonneg (n : positive) :
  forall r, 0 <= shr_m r -> 0 <= shr_m (SpecFloat.iter_pos shr_1 n r).
Proof.
  induction n as [n IH|n IH|]; intros r Hr; cbn.
  - apply IH, IH, shr_1_nonneg, Hr.
  - apply IH, IH, Hr.
  - apply shr_1_nonneg, Hr.
Qed.

Lemma shr_nonneg (r : shr_record) (e n : Z) :
  0 <= shr_m r -> 0 <= shr_m (fst (shr r e n)).
Proof.
  intros Hr. destruct n; cbn; try assumption.
  apply iter_shr_1_nonneg, Hr.
Qed.

Lemma shr_fexp_nonneg (m e : Z) (l : location) :
  0 <= m -> 0 <= shr_m (fst (shr_fexp prec emax m e l)).
Proof.
  intros Hm. unfold shr_fexp. apply shr_nonneg.
  destruct l as [|[]]; cbn; assumption.
Qed.

Lemma round_nearest_even_nonneg (m : Z) (l : location) :
  0 <= m -> 0 <= round_nearest_even m l.
Proof.
  intros Hm. destruct l as [|[]]; cbn; try lia.
  destruct (Z.even m); lia.
Qed.

Lemma binary_round_aux_notNaN (s : bool) (m e : Z) (l : location) :
  0 <= m -> isNaN (binary_round_aux prec emax s m e l) = false.
Proof.
  intros Hm. unfold binary_round_aux.
  pose proof (shr_fexp_nonneg m e l Hm) as H1.
  destruct (shr_fexp prec emax m e l) as [r1 e1]; cbn in H1.
  pose proof (shr_fexp_nonneg _ e1 loc_Exact
                (round_nearest_even_nonneg _ (loc_of_shr_record r1) H1)) as H2.
  destruct (shr_fexp prec emax _ e1 loc_Exact) as [r2 e2]; cbn in H2.
  destruct (shr_m r2) as [|p|p]; cbn; try reflexivity; try lia.
  destruct (Z.leb e2 (emax - prec)); reflexivity.
Qed.

Lemma binary_normalize_notNaN (m e : Z) (sz : bool) :
  isNaN (binary_normalize prec emax m e sz) = false.
Proof.
  destruct m as [|p|p]; cbn; try reflexivity;
    unfold binary_round;
    destruct (shl_align _ _ _) as [mz ez];
    apply binary_round_aux_notNaN; lia.
Qed.

Lemma add_notNaN (x y : number) :
  isNaN x = false -> isFinite y = true -> isNaN (add x y) = false.
Proof.
  destruct x as [sx|sx| |sx mx ex], y as [sy|sy| |sy my ey];
    try discriminate; intros _ _; cbn; try reflexivity.
  - destruct sx, sy; reflexivity.
  - apply binary_normalize_notNaN.
Qed.

Lemma sub_notNaN (x y : number) :
  isNaN x = false -> isFinite y = true -> isNaN (sub x y) = false.
Proof.
  destruct x as [sx|sx| |sx mx ex], y as [sy|sy| |sy my ey];
    try discriminate; intros _ _; cbn; try reflexivity.
  - destruct sx, sy; reflexivity.
  - apply binary_normalize_notNaN.
Qed.

Lemma abs_notNaN (x : number) : isNaN x = false -> isNaN (abs x) = false.
Proof. destruct x; intro; try discriminate; reflexivity. Qed.

Lemma finite_notNaN (x : number) : isFinite x = true -> isNaN x = false.
Proof. destruct x; intro; try discriminate; reflexivity. Qed.

(** *** The integer that [toFixed(0)] prints *)

(** For a value [m * 2^(-k)] the printed integer [n] satisfies
    [n - 1/2 <= m * 2^(-k) < n + 1/2]. *)
Lemma nearestInteger_spec (m k : positive) :
  let n := nearestInteger m (Zneg k) in
  2 * n * 2 ^ Zpos k - 2 ^ Zpos k <= 2 * Zpos m < 2 * n * 2 ^ Zpos k + 2 ^ Zpos k.
Proof.
  cbn zeta. unfold nearestInteger.
  rewrite Z.shiftr_div_pow2 by lia.
  assert (Hk : 2 ^ Zpos k = 2 * 2 ^ (Zpos k - 1)).
  { rewrite <- Z.pow_succ_r by lia. f_equal. lia. }
  assert (Hp : 0 < 2 ^ (Zpos k - 1)) by (apply Z.pow_pos_nonneg; lia).
  set (h := 2 ^ (Zpos k - 1)) in *.
  rewrite Hk.
  pose proof (Z.div_mod (Zpos m + h) (2 * h) ltac:(lia)) as Hd.
  pose proof (Z.mod_pos_bound (Zpos m + h) (2 * h) ltac:(lia)) as Hb.
  set (q := (Zpos m + h) / (2 * h)) in *.
  set (r := (Zpos m + h) mod (2 * h)) in *.
  nia.
Qed.

Lemma nearestInteger_exact (m : positive) (e : Z) :
  0 <= e -> nearestInteger m e = Zpos m * 2 ^ e.
Proof. destruct e; intros; try reflexivity; lia. Qed.
End NumberFacts.

(* ===================================================================== *)
(** * Facts about [parseFloat] *)
(* ===================================================================== *)

Section ParseFloatFacts.
Import JsNumber.

Lemma parseFloat_empty : parseFloat "" = NaN.
Proof. reflexivity. Qed.

(** Text whose first character cannot begin a number parses to NaN,
    whatever follows. *)
Lemma parseFloat_non_numeric (c : ascii) (r : string) :
  canStartNumber c = false -> parseFloat (String c r) = NaN.
Proof.
  destruct c as [[] [] [] [] [] [] [] []]; intro H;
    solve [ discriminate H | reflexivity ].
Qed.

Example parseFloat_500 : parseFloat "500" = ofZ 500.
Proof. reflexivity. Qed.

(** Leading white space is skipped and reading stops at the first
    character that cannot continue the number. *)
Example parseFloat_prefix : parseFloat "  12.5e1px" = ofZ 125.
Proof. reflexivity. Qed.

Example parseFloat_sign_alone : parseFloat "-" = NaN /\ parseFloat "." = NaN.
Proof. split; reflexivity. Qed.

Example parseFloat_negative_zero : parseFloat "-0" = S754_zero true.
Proof. reflexivity. Qed.

(** [toFixed(0)] takes the larger of two equally near integers, on the
    magnitude: 2.5 prints as 3 and -2.5 as -3. *)
Example toFixed0_half (f : number -> string) :
  toFixed0 f (ofDecimal 25 (-1)) = "3" /\ toFixed0 f (ofDecimal (-25) (-1)) = "-3".
Proof. split; reflexivity. Qed.

(** [parseFloat(s) > 0] is false as soon as the text parses to NaN. *)
Lemma NaN_not_positive (s : string) :
  isNaN (parseFloat s) = true -> gt (parseFloat s) (ofZ 0) = false.
Proof.
  destruct (parseFloat s); intro H; try discriminate H. reflexivity.
Qed.
End ParseFloatFacts.

(* ===================================================================== *)
(** * The deploy gate *)
(* ===================================================================== *)

Section DeployGate.
Import AccountSetup.

(** Every account is a Meta or a Google account, so the two [some] calls
    together ask whether any account is connected. *)
Lemma anyConnected (accounts : list AdAccount.t) :
  metaConnected accounts || googleConnected accounts = existsb isConnected accounts.
Proof.
  unfold metaConnected, googleConnected.
  induction accounts as [|a l IH]; cbn; [reflexivity|].
  rewrite <- IH.
  destruct (AdAccount.platform a), (isConnected a); cbn;
    rewrite ?orb_true_r; try reflexivity.
Qed.

Lemma existsb_count {A : Type} (f : A -> bool) (l : list A) :
  existsb f l = Nat.leb 1 (length (filter f l)).
Proof.
  induction l as [|a l IH]; cbn; [reflexivity|].
  destruct (f a); cbn; [reflexivity | exact IH].
Qed.

Lemma canDeploy_unfold (accounts : list AdAccount.t) (budget : string) :
  canDeploy accounts budget
  = Nat.leb 1 (connectedCount accounts) && budgetPositive budget.
Proof.
  unfold canDeploy, connectedCount, budgetPositive.
  now rewrite anyConnected, existsb_count.
Qed.

(** Nothing is missing exactly when the gate is open. *)
Lemma failureOf_None (accounts : list AdAccount.t) (budget : string) :
  failureOf accounts budget = None <-> canDeploy accounts budget = true.
Proof.
  rewrite canDeploy_unfold. unfold failureOf.
  destruct (Nat.leb 1 (connectedCount accounts)), (budgetPositive budget);
    cbn; split; intro H; try reflexivity; discriminate H.
Qed.

(** C2.  [canDeploy] is true exactly when at least one account has status
    [connected] and the budget text parses to a number greater than zero.
    With Meta and Google both disconnected and budget 500 it is false; with
    Meta connected it is true for budget 500 and false for budget 0, typed
    as [0] or left empty (the page shows a stored budget of 0 as the empty
    text). *)
Theorem canDeploy_spec :
  (forall (accounts : list AdAccount.t) (budget : string),
      canDeploy accounts budget = true
      <-> (1 <= connectedCount accounts)%nat
          /\ JsNumber.gt (JsNumber.parseFloat budget) (JsNumber.ofZ 0) = true)
  /\ canDeploy [sampleAccount meta "disconnected";
                sampleAccount google "disconnected"] "500" = false
  /\ canDeploy [sampleAccount meta "connected"] "500" = true
  /\ canDeploy [sampleAccount meta "connected"] "0" = false
  /\ canDeploy [sampleAccount meta "connected"] "" = false.
Proof.
  split; [|repeat split; reflexivity].
  intros accounts budget. rewrite canDeploy_unfold, andb_true_iff.
  unfold budgetPositive.
  split; intros [H1 H2]; split; try assumption.
  - now apply Nat.leb_le.
  - now apply Nat.leb_le.
Qed.

(** C9, as the page has it.  Whenever the gate is closed the page shows
    one fixed sentence, which names both requirements and is the same in
    all three failure cases. *)
Theorem deployMessage_when_closed (accounts : list AdAccount.t) (budget : string) :
  canDeploy accounts budget = false ->
  deployMessage accounts budget
  = "Save credentials, authorize platforms, and set a budget to launch.".
Proof. intro H. unfold deployMessage. now rewrite H. Qed.

Lemma deployMessage_when_closed_witness :
  canDeploy [] "500" = false
  /\ deployMessage [] "500"
     = "Save credentials, authorize platforms, and set a budget to launch.".
Proof.
  split; [reflexivity | apply (deployMessage_when_closed [] "500"); reflexivity].
Defined.

(** C9, as stated, fails: a missing platform and a missing budget are
    different failure cases and get the same sentence, so the sentence
    does not tell them apart. *)
Lemma deployMessage_does_not_distinguish :
  canDeploy [] "500" = false
  /\ canDeploy [sampleAccount meta "connected"] "" = false
  /\ failureOf [] "500" = Some no_connected_platform
  /\ failureOf [sampleAccount meta "connected"] "" = Some no_budget_set
  /\ failureOf [] "" = Some both_missing
  /\ deployMessage [] "500" = deployMessage [sampleAccount meta "connected"] ""
  /\ deployMessage [] "500" = deployMessage [] "".
Proof. repeat split; reflexivity. Qed.

(** C10.  A budget text that does not parse to a number greater than
    zero closes the gate, whatever the accounts; [canDeploy] is a total
    function of its two inputs, so nothing is thrown.  The empty text and
    text that cannot begin a number parse to NaN and are such budgets. *)
Theorem canDeploy_needs_positive_budget :
  (forall (accounts : list AdAccount.t) (budget : string),
      JsNumber.gt (JsNumber.parseFloat budget) (JsNumber.ofZ 0) = false ->
      canDeploy accounts budget = false)
  /\ (forall (accounts : list AdAccount.t) (budget : string),
      JsNumber.isNaN (JsNumber.parseFloat budget) = true ->
      canDeploy accounts budget = false)
  /\ JsNumber.parseFloat "" = JsNumber.NaN
  /\ (forall (c : ascii) (r : string),
      canStartNumber c = false ->
      JsNumber.parseFloat (String c r) = JsNumber.NaN)
  /\ (forall (accounts : list AdAccount.t) (budget : string),
      canDeploy accounts budget = true ->
      JsNumber.isNaN (JsNumber.parseFloat budget) = false
      /\ JsNumber.gt (JsNumber.parseFloat budget) (JsNumber.ofZ 0) = true).
Proof.
  assert (Hclosed : forall accounts budget,
             JsNumber.gt (JsNumber.parseFloat budget) (JsNumber.ofZ 0) = false ->
             canDeploy accounts budget = false).
  { intros accounts budget H. unfold canDeploy. rewrite H. apply andb_false_r. }
  split; [exact Hclosed|].
  split; [intros accounts budget H; apply Hclosed, NaN_not_positive, H|].
  split; [reflexivity|].
  split; [intros c r; apply parseFloat_non_numeric|].
  intros accounts budget H.
  destruct (JsNumber.gt (JsNumber.parseFloat budget) (JsNumber.ofZ 0)) eqn:E.
  - split; [|reflexivity].
    destruct (JsNumber.parseFloat budget); try reflexivity. discriminate E.
  - rewrite (Hclosed accounts budget E) in H. discriminate H.
Qed.

Lemma canDeploy_needs_positive_budget_witness :
  canDeploy [sampleAccount meta "connected"; sampleAccount google "connected"] "" = false
  /\ canDeploy [sampleAccount meta "connected"] "abc" = false
  /\ canDeploy [sampleAccount meta "connected"] "-5" = false.
Proof.
  destruct canDeploy_needs_positive_budget as [Hclosed [Hnan _]].
  split; [|split].
  - apply Hnan. reflexivity.
  - apply Hnan. reflexivity.
  - apply Hclosed. reflexivity.
Defined.
End DeployGate.

(* ===================================================================== *)
(** * Saving the allocation *)
(* ===================================================================== *)

Section AllocationCheck.
Import Settings.
Variable Number_toString : JsNumber.number -> string.

Lemma total_notNaN (a : Allocations) :
  finiteShares a = true -> JsNumber.isNaN (total a) = false.
Proof.
  unfold finiteShares, total. intros H.
  apply andb_true_iff in H as [H Ht]. apply andb_true_iff in H as [Hp Hr].
  apply add_notNaN; [|exact Ht].
  apply add_notNaN; [|exact Hr].
  apply finite_notNaN, Hp.
Qed.

(** For proper shares the test of the program, [> 0.01], is the negation
    of the test of the specification, [<= 0.01]. *)
Lemma withinTolerance_offTarget (a : Allocations) :
  finiteShares a = true -> withinTolerance a = negb (offTarget a).
Proof.
  intros H. unfold withinTolerance, offTarget.
  apply le_not_gt; [|reflexivity].
  apply abs_notNaN, sub_notNaN; [|reflexivity].
  apply total_notNaN, H.
Qed.

(** A NaN share passes the test of the program: every comparison with
    NaN is false, so the early return is not taken. *)
Lemma offTarget_NaN (a : Allocations) :
  JsNumber.isNaN (total a) = true -> offTarget a = false.
Proof.
  unfold offTarget. destruct (total a); intro H; try discriminate H.
  reflexivity.
Qed.

Lemma saveBudget_rejects (a : Allocations) (res : Settled unit) :
  offTarget a = true ->
  saveBudget Number_toString a res
  = ([], {| type := "error";
            text := "Allocations must sum to 100% (currently "
                    ++ percent Number_toString (total a) ++ "%)" |}).
Proof. intro H. unfold saveBudget. now rewrite H. Qed.

Lemma saveBudget_accepts (a : Allocations) (res : Settled unit) :
  offTarget a = false ->
  fst (saveBudget Number_toString a res)
  = [PUT "/clients/me/budget" (BudgetBody a)].
Proof. intro H. unfold saveBudget. rewrite H. now destruct res. Qed.

(** The integer that [toFixed(0)] prints is the nearest one. *)
Lemma nearestInteger_isNearest (m : positive) (e : Z) :
  isNearestInteger (JsNumber.nearestInteger m e) m e.
Proof.
  destruct e as [|p|k]; cbn [isNearestInteger].
  - reflexivity.
  - reflexivity.
  - pose proof (nearestInteger_spec m k) as H. cbn zeta in H.
    set (n := JsNumber.nearestInteger m (Z.neg k)) in *.
    set (h := 2 ^ Z.pos k) in *. lia.
Qed.

(** The slider values are what [parseFloat] makes of the value texts of a
    range input with step 0.05. *)
Example sliderValue_parsed :
  map JsNumber.parseFloat
    ["0"; "0.05"; "0.1"; "0.15"; "0.2"; "0.25"; "0.3"; "0.35"; "0.4"; "0.45"; "0.5";
     "0.55"; "0.6"; "0.65"; "0.7"; "0.75"; "0.8"; "0.85"; "0.9"; "0.95"; "1"]
  = map sliderValue (seq 0 21).
Proof. vm_compute. reflexivity. Qed.

(** Every triple of slider values, tried: the save test passes exactly
    when the steps add up to 20, and the percentage printed is the steps
    times five. *)
Lemma slider_triples_checked :
  forallb (fun k1 =>
    forallb (fun k2 =>
      forallb (fun k3 =>
        let a := sliderShares k1 k2 k3 in
        Bool.eqb (negb (offTarget a)) (Nat.eqb (k1 + k2 + k3) 20)
        && String.eqb (percent Number_toString (total a))
                      (JsNumber.decimalString (Z.of_nat (5 * (k1 + k2 + k3)))))
        (seq 0 21)) (seq 0 21)) (seq 0 21)
  = true.
Proof. vm_compute. reflexivity. Qed.

Lemma slider_triple (k1 k2 k3 : nat) :
  (k1 <= 20)%nat -> (k2 <= 20)%nat -> (k3 <= 20)%nat ->
  offTarget (sliderShares k1 k2 k3) = negb (Nat.eqb (k1 + k2 + k3) 20)
  /\ percent Number_toString (total (sliderShares k1 k2 k3))
     = JsNumber.decimalString (Z.of_nat (5 * (k1 + k2 + k3))).
Proof.
  intros H1 H2 H3. pose proof slider_triples_checked as H.
  rewrite forallb_forall in H. specialize (H k1 ltac:(apply in_seq; lia)).
  rewrite forallb_forall in H. specialize (H k2 ltac:(apply in_seq; lia)).
  rewrite forallb_forall in H. specialize (H k3 ltac:(apply in_seq; lia)).
  cbn zeta in H. apply andb_true_iff in H as [Ha Hb].
  apply Bool.eqb_prop in Ha. apply String.eqb_eq in Hb.
  split; [|exact Hb].
  rewrite <- Ha. now rewrite negb_involutive.
Qed.

(** C3, as the page has it.  All arithmetic is the program's, in binary64:
    [total = (p + r) + t], [total - 1], the comparison with [0.01], and
    [total * 100].

    For an allocation of finite numbers the save sends the allocation,
    unchanged, exactly when [abs(total - 1) <= 0.01]; otherwise it sends
    nothing and leaves an error that names [(total * 100).toFixed(0)]
    percent.  That number is the integer nearest to the product
    [total * 100] (the larger of two equally near ones), with a minus sign
    for a negative product.  A total of 0.94 is refused with 94%, a total
    of 1.07 with 107%.

    For the allocations the three sliders of the page produce, [k1], [k2]
    and [k3] steps of 0.05, the save is accepted exactly when the steps
    add up to 20, that is when the percentages add up to 100, and a refusal
    names their sum, [5 * (k1 + k2 + k3)] percent. *)
Theorem saveBudget_validates :
  (forall (a : Allocations) (res : Settled unit),
      finiteShares a = true ->
      (withinTolerance a = true
       <-> fst (saveBudget Number_toString a res)
           = [PUT "/clients/me/budget" (BudgetBody a)])
      /\ (withinTolerance a = false ->
          saveBudget Number_toString a res
          = ([], {| type := "error";
                    text := "Allocations must sum to 100% (currently "
                            ++ JsNumber.toFixed0 Number_toString
                                 (JsNumber.mul (total a) (JsNumber.ofZ 100))
                            ++ "%)" |})))
  /\ (forall (a : Allocations) (s : bool) (m : positive) (e : Z),
      JsNumber.mul (total a) (JsNumber.ofZ 100) = S754_finite s m e ->
      JsNumber.le (JsNumber.ofDecimal 1 21) (S754_finite false m e) = false ->
      exists n : Z,
        JsNumber.toFixed0 Number_toString (JsNumber.mul (total a) (JsNumber.ofZ 100))
        = (if s then "-" else "") ++ JsNumber.decimalString n
        /\ isNearestInteger n m e)
  /\ (forall (a : Allocations) (res : Settled unit),
      total a = JsNumber.ofDecimal 94 (-2) ->
      saveBudget Number_toString a res
      = ([], {| type := "error";
                text := "Allocations must sum to 100% (currently 94%)" |}))
  /\ (forall (a : Allocations) (res : Settled unit),
      total a = JsNumber.ofDecimal 107 (-2) ->
      saveBudget Number_toString a res
      = ([], {| type := "error";
                text := "Allocations must sum to 100% (currently 107%)" |}))
  /\ (forall (k1 k2 k3 : nat) (res : Settled unit),
      (k1 <= 20)%nat -> (k2 <= 20)%nat -> (k3 <= 20)%nat ->
      let a := sliderShares k1 k2 k3 in
      (fst (saveBudget Number_toString a res)
       = [PUT "/clients/me/budget" (BudgetBody a)]
       <-> (k1 + k2 + k3 = 20)%nat)
      /\ ((k1 + k2 + k3 <> 20)%nat ->
          saveBudget Number_toString a res
          = ([], {| type := "error";
                    text := "Allocations must sum to 100% (currently "
                            ++ JsNumber.decimalString (Z.of_nat (5 * (k1 + k2 + k3)))
                            ++ "%)" |}))).
Proof.
  split; [|split; [|split; [|split]]].
  - intros a res Hfin. pose proof (withinTolerance_offTarget a Hfin) as Hw.
    split.
    + rewrite Hw. split.
      * intro H. apply saveBudget_accepts. now destruct (offTarget a).
      * intro H. destruct (offTarget a) eqn:E; [|reflexivity].
        rewrite (saveBudget_rejects a res E) in H. discriminate H.
    + rewrite Hw. intro H. apply saveBudget_rejects. now destruct (offTarget a).
  - intros a s m e Hm Hbig. exists (JsNumber.nearestInteger m e).
    split; [|apply nearestInteger_isNearest].
    rewrite Hm. cbn [JsNumber.toFixed0]. now rewrite Hbig.
  - intros a res Ht. rewrite saveBudget_rejects.
    + unfold percent. rewrite Ht. reflexivity.
    + unfold offTarget. rewrite Ht. reflexivity.
  - intros a res Ht. rewrite saveBudget_rejects.
    + unfold percent. rewrite Ht. reflexivity.
    + unfold offTarget. rewrite Ht. reflexivity.
  - intros k1 k2 k3 res H1 H2 H3. cbn zeta.
    destruct (slider_triple k1 k2 k3 H1 H2 H3) as [Hoff Hpct].
    split; [split|].
    + intro H. destruct (Nat.eqb (k1 + k2 + k3) 20) eqn:E.
      * now apply Nat.eqb_eq.
      * cbn in Hoff. rewrite (saveBudget_rejects _ res Hoff) in H. discriminate H.
    + intro H. apply saveBudget_accepts. rewrite Hoff.
      apply Nat.eqb_eq in H. now rewrite H.
    + intro H. apply Nat.eqb_neq in H. rewrite H in Hoff. cbn in Hoff.
      rewrite (saveBudget_rejects _ res Hoff). now rewrite Hpct.
Qed.
End AllocationCheck.

(** The shares 0.5, 0.35 and 0.09 add up to 0.94, the shares 0.5, 0.35 and
    0.22 to 1.07; the sliders at 50, 35 and 15 percent are accepted, at 50,
    35 and 10 percent refused with 95%. *)
Lemma saveBudget_validates_witness :
  Settings.finiteShares (shares "0.5" "0.35" "0.09") = true
  /\ Settings.total (shares "0.5" "0.35" "0.09") = JsNumber.ofDecimal 94 (-2)
  /\ Settings.total (shares "0.5" "0.35" "0.22") = JsNumber.ofDecimal 107 (-2)
  /\ Settings.saveBudget (fun _ => "") (shares "0.5" "0.35" "0.09") (Fulfilled tt)
     = ([], {| Settings.type := "error";
               Settings.text := "Allocations must sum to 100% (currently 94%)" |})
  /\ Settings.saveBudget (fun _ => "") (shares "0.5" "0.35" "0.22") (Fulfilled tt)
     = ([], {| Settings.type := "error";
               Settings.text := "Allocations must sum to 100% (currently 107%)" |})
  /\ fst (Settings.saveBudget (fun _ => "") (shares "0.5" "0.35" "0.15") (Fulfilled tt))
     = [PUT "/clients/me/budget" (BudgetBody (shares "0.5" "0.35" "0.15"))]
  /\ fst (Settings.saveBudget (fun _ => "") (Settings.sliderShares 10 7 3) (Fulfilled tt))
     = [PUT "/clients/me/budget" (BudgetBody (Settings.sliderShares 10 7 3))]
  /\ Settings.saveBudget (fun _ => "") (Settings.sliderShares 10 7 2) (Fulfilled tt)
     = ([], {| Settings.type := "error";
               Settings.text := "Allocations must sum to 100% (currently 95%)" |}).
Proof.
  destruct (saveBudget_validates (fun _ => "")) as (Hiff & _ & H94 & H107 & Hslide).
  split; [reflexivity|].
  split; [reflexivity|].
  split; [reflexivity|].
  split; [apply H94; reflexivity|].
  split; [apply H107; reflexivity|].
  split; [apply (Hiff (shares "0.5" "0.35" "0.15") (Fulfilled tt)); reflexivity|].
  split.
  - apply (Hslide 10 7 3 (Fulfilled tt))%nat; [lia | lia | lia | reflexivity].
  - apply (Hslide 10 7 2 (Fulfilled tt))%nat; [lia | lia | lia | ].
    cbn. lia.
Defined.

(** C3, as stated, fails in three ways.
    The doubles 0.5, 0.35 and 0.16 add up, without rounding, to less than
    1.01, so the total is within the tolerance; the program's sum is
    rounded up past it, and the save is refused, with 101%.
    With a share that is NaN nothing is within any tolerance, and the save
    goes through: every comparison with NaN is false.
    The double 0.945 is below 0.945, so its whole percent is 94; the
    program's product with 100 is rounded to 94.5 and printed as 95%. *)
Lemma saveBudget_is_not_exact :
  let nanShares := {| prospecting_pct := JsNumber.NaN;
                      retargeting_pct := JsNumber.ofDecimal 35 (-2);
                      testing_pct := JsNumber.ofDecimal 15 (-2) |} in
  Settings.exactlyWithinTolerance (shares "0.5" "0.35" "0.16") = true
  /\ Settings.saveBudget (fun _ => "") (shares "0.5" "0.35" "0.16") (Fulfilled tt)
     = ([], {| Settings.type := "error";
               Settings.text := "Allocations must sum to 100% (currently 101%)" |})
  /\ Settings.exactlyWithinTolerance nanShares = false
  /\ Settings.saveBudget (fun _ => "") nanShares (Fulfilled tt)
     = ([PUT "/clients/me/budget" (BudgetBody nanShares)],
        {| Settings.type := "success"; Settings.text := "Budget allocations saved!" |})
  /\ Settings.exactPercent (shares "0.945" "0" "0") = Some 94
  /\ Settings.saveBudget (fun _ => "") (shares "0.945" "0" "0") (Fulfilled tt)
     = ([], {| Settings.type := "error";
               Settings.text := "Allocations must sum to 100% (currently 95%)" |}).
Proof. cbn zeta. repeat split; vm_compute; reflexivity. Qed.

(* ===================================================================== *)
(** * The session provider *)
(* ===================================================================== *)

Section Session.
Import AuthContext.

(** ** What the effect leaves alone *)

Lemma tokenEffect_keeps (w : World) :
  user (auth (tokenEffect w)) = user (auth w)
  /\ token (auth (tokenEffect w)) = token (auth w)
  /\ localStorage (tokenEffect w) = localStorage w.
Proof.
  unfold tokenEffect. destruct (truthy (token (auth w))); cbn; auto.
Qed.

Lemma rerender_keeps (prev : option string) (w : World) :
  user (auth (rerender prev w)) = user (auth w)
  /\ token (auth (rerender prev w)) = token (auth w)
  /\ localStorage (rerender prev w) = localStorage w.
Proof.
  unfold rerender. destruct (decide (token (auth w) = prev)); auto.
  apply tokenEffect_keeps.
Qed.

(** Rendering again with no token never starts a request and leaves the
    loading flag as a handler that cleared it left it. *)
Lemma rerender_no_token (prev : option string) (w : World) :
  token (auth w) = None ->
  inflight (rerender prev w) = inflight w
  /\ requests (rerender prev w) = requests w
  /\ (isLoading (auth w) = false -> isLoading (auth (rerender prev w)) = false).
Proof.
  intro Ht. unfold rerender.
  destruct (decide (token (auth w) = prev)); auto.
  unfold tokenEffect. rewrite Ht. cbn. auto.
Qed.

Lemma rerender_same (w : World) : rerender (token (auth w)) w = w.
Proof. unfold rerender. now destruct (decide _). Qed.

(** ** The handlers, field by field *)

Lemma logout_clears (w : World) :
  user (auth (logout w)) = None
  /\ token (auth (logout w)) = None
  /\ localStorage (logout w) = delete "fage_token" (localStorage w)
  /\ inflight (logout w) = inflight w
  /\ requests (logout w) = requests w.
Proof.
  unfold logout.
  set (w1 := setUser None (setToken None (removeItem "fage_token" w))).
  destruct (rerender_keeps (token (auth w)) w1) as (Hu & Ht & Hl).
  destruct (rerender_no_token (token (auth w)) w1 eq_refl) as (Hi & Hr & _).
  rewrite Hu, Ht, Hl, Hi, Hr. cbn. auto.
Qed.

Lemma fetchUser_settle_fulfilled (data : User) (w : World) :
  let w' := fetchUser_settle (Fulfilled data) w in
  auth w' = {| user := Some data; token := token (auth w); isLoading := false |}
  /\ localStorage w' = localStorage w
  /\ inflight w' = pred (inflight w)
  /\ requests w' = requests w.
Proof.
  cbn zeta. unfold fetchUser_settle, rerender. cbn.
  destruct (decide (token (auth w) = token (auth w))) as [_|N]; [|now destruct N].
  cbn. auto.
Qed.

Lemma fetchUser_settle_rejected (e : AxiosError) (w : World) :
  let w' := fetchUser_settle (Rejected e) w in
  auth w' = {| user := None; token := None; isLoading := false |}
  /\ localStorage w' = delete "fage_token" (localStorage w)
  /\ inflight w' = pred (inflight w)
  /\ requests w' = requests w.
Proof.
  cbn zeta. unfold fetchUser_settle, rerender. cbn.
  destruct (decide (None = token (auth w))); cbn; auto.
Qed.

(** The part a successful [login] and [register] share. *)
Lemma token_stored (prev : option string) (newToken : string) (w : World) :
  let w' := rerender prev (setToken (Some newToken) (setItem "fage_token" newToken w)) in
  localStorage w' !! "fage_token" = Some newToken
  /\ token (auth w') = Some newToken
  /\ user (auth w') = user (auth w).
Proof.
  cbn zeta.
  destruct (rerender_keeps prev
              (setToken (Some newToken) (setItem "fage_token" newToken w)))
    as (Hu & Ht & Hl).
  rewrite Hu, Ht, Hl. cbn. split; [apply lookup_insert_eq | auto].
Qed.

(** ** Mounting *)

(** C6.  Mounting the provider on a storage that holds no token leaves
    the session without user and token, not loading, with no request sent
    and none in flight, and the storage as it was. *)
Theorem AuthProvider_without_token (ls : gmap string string) :
  ls !! "fage_token" = None ->
  AuthProvider ls
  = {| auth := {| user := None; token := None; isLoading := false |};
       localStorage := ls; inflight := 0; requests := [] |}.
Proof.
  intro H. unfold AuthProvider, tokenEffect. rewrite H. reflexivity.
Qed.

Lemma AuthProvider_without_token_witness :
  (∅ : gmap string string) !! "fage_token" = None
  /\ requests (AuthProvider ∅) = []
  /\ isLoading (auth (AuthProvider ∅)) = false.
Proof.
  split; [reflexivity|].
  rewrite (AuthProvider_without_token ∅); [split; reflexivity | reflexivity].
Defined.

Lemma AuthProvider_with_token (ls : gmap string string) (t : string) :
  ls !! "fage_token" = Some t -> truthy (Some t) = true ->
  AuthProvider ls
  = {| auth := {| user := None; token := Some t; isLoading := true |};
       localStorage := ls; inflight := 1; requests := [GET "/auth/me"] |}.
Proof.
  intros H Ht. unfold AuthProvider, tokenEffect. rewrite H. cbn [auth token].
  rewrite Ht. reflexivity.
Qed.

(** C7.  Mounting on a storage that holds a token sends the profile
    request; when that request fails, whatever the error, the session is
    left without user and token, not loading, and the token is gone from
    the storage; nothing else was sent. *)
Theorem boot_profile_rejected (ls : gmap string string) (t : string) (e : AxiosError) :
  ls !! "fage_token" = Some t -> truthy (Some t) = true ->
  requests (AuthProvider ls) = [GET "/auth/me"]
  /\ exists w' : World,
      step (AuthProvider ls) (ProfileSettled (Rejected e)) = Some w'
      /\ auth w' = {| user := None; token := None; isLoading := false |}
      /\ localStorage w' !! "fage_token" = None
      /\ localStorage w' = delete "fage_token" ls
      /\ inflight w' = 0%nat
      /\ requests w' = [GET "/auth/me"].
Proof.
  intros H Ht. rewrite (AuthProvider_with_token ls t H Ht).
  split; [reflexivity|].
  eexists. split; [reflexivity|].
  match goal with |- context [fetchUser_settle ?r ?w] =>
    destruct (fetchUser_settle_rejected e w) as (Ha & Hl & Hi & Hr) end.
  rewrite Ha, Hl, Hi, Hr. cbn.
  repeat split. apply lookup_delete_eq.
Qed.

Lemma boot_profile_rejected_witness :
  ({[ "fage_token" := "tok" ]} : gmap string string) !! "fage_token" = Some "tok"
  /\ truthy (Some "tok") = true
  /\ run (AuthProvider {[ "fage_token" := "tok" ]}) [ProfileSettled (Rejected unauthorized)]
     = Some {| auth := {| user := None; token := None; isLoading := false |};
               localStorage := ∅; inflight := 0; requests := [GET "/auth/me"] |}
  /\ requests (AuthProvider {[ "fage_token" := "tok" ]}) = [GET "/auth/me"].
Proof.
  split; [reflexivity|]. split; [reflexivity|]. split; [reflexivity|].
  apply (boot_profile_rejected {[ "fage_token" := "tok" ]} "tok" unauthorized);
    reflexivity.
Defined.
(** ** Signing in *)

Lemma login_fulfilled (email password t : string) (w : World) :
  let w' := fst (login email password (Fulfilled t) w) in
  localStorage w' !! "fage_token" = Some t
  /\ token (auth w') = Some t
  /\ user (auth w') = user (auth w).
Proof.
  cbn zeta. unfold login. cbn [fst].
  match goal with |- context [rerender ?p (setToken _ (setItem _ _ ?w0))] =>
    exact (token_stored p t w0) end.
Qed.

Lemma register_fulfilled (email password fullName t : string) (w : World) :
  let w' := fst (register email password fullName (Fulfilled t) w) in
  localStorage w' !! "fage_token" = Some t
  /\ token (auth w') = Some t
  /\ user (auth w') = user (auth w).
Proof.
  cbn zeta. unfold register. cbn [fst].
  match goal with |- context [rerender ?p (setToken _ (setItem _ _ ?w0))] =>
    exact (token_stored p t w0) end.
Qed.

(** C8.  [login] and [register]: when the endpoint answers with a token,
    the call returns normally with that token in the storage and in the
    session; when the request fails, the call fails with that same error
    and session, storage and outstanding requests are what they were, so
    a session without token stays without token. *)
Theorem login_register_contract
    (w : World) (email password fullName : string) :
  (forall t : string,
      let r := login email password (Fulfilled t) w in
      snd r = Fulfilled tt
      /\ localStorage (fst r) !! "fage_token" = Some t
      /\ token (auth (fst r)) = Some t)
  /\ (forall e : AxiosError,
      let r := login email password (Rejected e) w in
      snd r = Rejected e
      /\ auth (fst r) = auth w
      /\ localStorage (fst r) = localStorage w
      /\ inflight (fst r) = inflight w)
  /\ (forall t : string,
      let r := register email password fullName (Fulfilled t) w in
      snd r = Fulfilled tt
      /\ localStorage (fst r) !! "fage_token" = Some t
      /\ token (auth (fst r)) = Some t)
  /\ (forall e : AxiosError,
      let r := register email password fullName (Rejected e) w in
      snd r = Rejected e
      /\ auth (fst r) = auth w
      /\ localStorage (fst r) = localStorage w
      /\ inflight (fst r) = inflight w).
Proof.
  split; [|split; [|split]].
  - intros t. cbn zeta.
    destruct (login_fulfilled email password t w) as (Hl & Ht & _).
    split; [reflexivity | split; assumption].
  - intros e. cbn. auto.
  - intros t. cbn zeta.
    destruct (register_fulfilled email password fullName t w) as (Hl & Ht & _).
    split; [reflexivity | split; assumption].
  - intros e. cbn. auto.
Qed.

(** ** Signing out under an outstanding profile request *)

Lemma run_app (evs1 evs2 : list Event) :
  forall w, run w (evs1 ++ evs2)
            = match run w evs1 with
              | Some w1 => run w1 evs2
              | None => None
              end.
Proof.
  induction evs1 as [|ev evs1 IH]; intro w; cbn; [reflexivity|].
  destruct (step w ev); [apply IH | reflexivity].
Qed.

(** Settled profile requests never bring a token back. *)
Lemma settled_keeps_cleared (evs : list Event) :
  forall w w',
    forallb isProfileSettled evs = true ->
    token (auth w) = None -> localStorage w !! "fage_token" = None ->
    run w evs = Some w' ->
    token (auth w') = None /\ localStorage w' !! "fage_token" = None.
Proof.
  induction evs as [|ev evs IH]; intros w w' Hall Ht Hl Hr; cbn in Hr.
  - injection Hr as <-. auto.
  - cbn in Hall. apply andb_true_iff in Hall as [Hev Hall].
    destruct ev as [| | |res]; try discriminate Hev. cbn in Hr.
    destruct (inflight w); [discriminate Hr|].
    apply (IH _ _ Hall) in Hr; [exact Hr| |]; destruct res as [data|e].
    + destruct (fetchUser_settle_fulfilled data w) as (Ha & _). now rewrite Ha.
    + destruct (fetchUser_settle_rejected e w) as (Ha & _). now rewrite Ha.
    + destruct (fetchUser_settle_fulfilled data w) as (_ & Hl' & _). now rewrite Hl'.
    + destruct (fetchUser_settle_rejected e w) as (_ & Hl' & _).
      rewrite Hl'. apply lookup_delete_eq.
Qed.

(** X1.  The token of the session is always the stored one: in every
    state a mounted provider reaches, [token] is what [localStorage] holds
    under [fage_token]. *)
Lemma token_mirrors_storage (ls : gmap string string) (evs : list Event) (w : World) :
  run (AuthProvider ls) evs = Some w ->
  token (auth w) = localStorage w !! "fage_token".
Proof.
  assert (Hstep : forall w ev w',
             token (auth w) = localStorage w !! "fage_token" ->
             step w ev = Some w' ->
             token (auth w') = localStorage w' !! "fage_token").
  { clear. intros w ev w' Hw Hs.
    destruct ev as [e p res|e p n res| |res]; cbn in Hs.
    - injection Hs as <-. destruct res as [t|err]; [|exact Hw].
      destruct (login_fulfilled e p t w) as (Hl & Ht & _). now rewrite Hl, Ht.
    - injection Hs as <-. destruct res as [t|err]; [|exact Hw].
      destruct (register_fulfilled e p n t w) as (Hl & Ht & _). now rewrite Hl, Ht.
    - injection Hs as <-.
      destruct (logout_clears w) as (_ & Ht & Hl & _).
      rewrite Ht, Hl. symmetry. apply lookup_delete_eq.
    - destruct (inflight w); [discriminate Hs|]. injection Hs as <-.
      destruct res as [data|err].
      + destruct (fetchUser_settle_fulfilled data w) as (Ha & Hl & _).
        now rewrite Ha, Hl.
      + destruct (fetchUser_settle_rejected err w) as (Ha & Hl & _).
        rewrite Ha, Hl. symmetry. apply lookup_delete_eq. }
  assert (Hrun : forall evs w w',
             token (auth w) = localStorage w !! "fage_token" ->
             run w evs = Some w' ->
             token (auth w') = localStorage w' !! "fage_token").
  { clear evs w. induction evs as [|ev evs IH]; intros w w' Hw Hr; cbn in Hr.
    - now injection Hr as <-.
    - destruct (step w ev) as [w1|] eqn:Es; [|discriminate Hr].
      eapply IH; [|exact Hr]. eapply Hstep; eassumption. }
  apply Hrun.
  destruct (tokenEffect_keeps
              {| auth := {| user := None; token := ls !! "fage_token"; isLoading := true |};
                 localStorage := ls; inflight := 0; requests := [] |})
    as (_ & Ht & Hl).
  unfold AuthProvider. now rewrite Ht, Hl.
Qed.

(** C1, as the provider has it.  When [logout] is called while a profile
    request is in flight and that request then succeeds, at once or after
    other outstanding profile requests have settled, the token stays
    cleared, in the session and in the storage, and the session is not
    loading; the profile that came back is installed as [user]. *)
Theorem logout_then_profile_fulfilled (w : World) (data : User) :
  (0 < inflight w)%nat ->
  (exists w2 : World,
      run w [Logout; ProfileSettled (Fulfilled data)] = Some w2
      /\ token (auth w2) = None
      /\ localStorage w2 !! "fage_token" = None
      /\ isLoading (auth w2) = false
      /\ user (auth w2) = Some data)
  /\ (forall (evs : list Event) (w2 : World),
      forallb isProfileSettled evs = true ->
      run w (Logout :: evs ++ [ProfileSettled (Fulfilled data)]) = Some w2 ->
      token (auth w2) = None
      /\ localStorage w2 !! "fage_token" = None
      /\ isLoading (auth w2) = false
      /\ user (auth w2) = Some data).
Proof.
  intro Hin.
  destruct (logout_clears w) as (Hu & Ht & Hl & Hi & Hr).
  split.
  - exists (fetchUser_settle (Fulfilled data) (logout w)).
    split.
    + cbn [run step]. rewrite Hi.
      destruct (inflight w); [lia | reflexivity].
    + destruct (fetchUser_settle_fulfilled data (logout w)) as (Ha & Hl' & _).
      rewrite Ha, Hl', Ht, Hl. cbn.
      repeat split. apply lookup_delete_eq.
  - intros evs w2 Hall Hrun. cbn [run step] in Hrun.
    rewrite run_app in Hrun.
    destruct (run (logout w) evs) as [w1|] eqn:E1; [|discriminate Hrun].
    destruct (settled_keeps_cleared evs (logout w) w1 Hall Ht) as [Ht1 Hl1];
      [rewrite Hl; apply lookup_delete_eq | exact E1 |].
    cbn [run step] in Hrun.
    destruct (inflight w1); [discriminate Hrun|]. injection Hrun as <-.
    destruct (fetchUser_settle_fulfilled data w1) as (Ha & Hl' & _).
    rewrite Ha, Hl', Ht1, Hl1. cbn. repeat split.
Qed.

Lemma logout_then_profile_fulfilled_witness :
  (0 < inflight (AuthProvider {[ "fage_token" := "tok" ]}))%nat
  /\ exists w2 : World,
      run (AuthProvider {[ "fage_token" := "tok" ]})
          [Logout; ProfileSettled (Fulfilled sampleUser)] = Some w2
      /\ token (auth w2) = None
      /\ localStorage w2 !! "fage_token" = None
      /\ isLoading (auth w2) = false
      /\ user (auth w2) = Some sampleUser.
Proof.
  split; [vm_compute; lia|].
  apply (logout_then_profile_fulfilled
           (AuthProvider {[ "fage_token" := "tok" ]}) sampleUser).
  vm_compute; lia.
Defined.

(** C1, as stated, fails.  Mount with a stored token, sign out while the
    profile request is in flight, let the request succeed: the profile is
    installed, and a protected route shows its content again. *)
Lemma logout_does_not_invalidate_fetch :
  inflight (AuthProvider {[ "fage_token" := "tok" ]}) = 1%nat
  /\ run (AuthProvider {[ "fage_token" := "tok" ]})
         [Logout; ProfileSettled (Fulfilled sampleUser)]
     = Some {| auth := {| user := Some sampleUser; token := None; isLoading := false |};
               localStorage := ∅; inflight := 0; requests := [GET "/auth/me"] |}
  /\ App.ProtectedRoute {| user := Some sampleUser; token := None; isLoading := false |}
     = App.Children.
Proof. repeat split. Qed.

(** ** User and token *)

Lemma tokenBacked_mount (ls : gmap string string) : tokenBacked (AuthProvider ls).
Proof.
  unfold AuthProvider, tokenEffect. cbn [auth token].
  destruct (ls !! "fage_token") as [t|] eqn:E; cbn.
  - destruct (negb (String.eqb t "")); cbn; split; intros; eauto.
  - split; [intros u Hu; discriminate Hu | intros Hi; cbn in Hi; lia].
Qed.

Lemma tokenBacked_with_token (w : World) (t : string) :
  token (auth w) = Some t -> tokenBacked w.
Proof. intro H. split; intros; eauto. Qed.

Lemma tokenBacked_step (w w' : World) (ev : Event) :
  tokenBacked w -> undisturbed w ev = true -> step w ev = Some w' ->
  tokenBacked w'.
Proof.
  intros [Hu Hi] Hq Hs. destruct ev as [e p res|e p n res| |res]; cbn in Hs.
  - injection Hs as <-. destruct res as [t|err].
    + destruct (login_fulfilled e p t w) as (_ & Ht & _).
      eapply tokenBacked_with_token, Ht.
    + cbn. split; assumption.
  - injection Hs as <-. destruct res as [t|err].
    + destruct (register_fulfilled e p n t w) as (_ & Ht & _).
      eapply tokenBacked_with_token, Ht.
    + cbn. split; assumption.
  - injection Hs as <-. cbn in Hq. apply Nat.eqb_eq in Hq.
    destruct (logout_clears w) as (Hu' & _ & _ & Hi' & _).
    split; [rewrite Hu'; discriminate | rewrite Hi', Hq; lia].
  - destruct (inflight w) as [|k] eqn:Ek; [discriminate|].
    injection Hs as <-. destruct res as [data|err].
    + destruct (fetchUser_settle_fulfilled data w) as (Ha & _).
      destruct Hi as [t Ht]; [lia|].
      apply (tokenBacked_with_token _ t). now rewrite Ha.
    + cbn in Hq. rewrite Ek in Hq. apply Nat.eqb_eq in Hq.
      destruct (fetchUser_settle_rejected err w) as (Ha & _ & Hi' & _).
      split; [rewrite Ha; discriminate | rewrite Hi', Ek, Hq; cbn; lia].
Qed.

Lemma tokenBacked_run (evs : list Event) :
  forall w w', tokenBacked w -> run_undisturbed w evs = Some w' -> tokenBacked w'.
Proof.
  induction evs as [|ev evs IH]; intros w w' Hw Hr; cbn in Hr.
  - now injection Hr as <-.
  - destruct (undisturbed w ev) eqn:Eq; [|discriminate].
    destruct (step w ev) as [w1|] eqn:Es; [|discriminate].
    eapply IH; [|exact Hr]. eapply tokenBacked_step; eassumption.
Qed.

(** C5, as the provider has it.  In every state reached from mounting by
    logins, registrations, logouts and settled profile requests, where
    [logout] and a failed profile request occur only while no other
    profile request is in flight, a present user comes with a present
    token. *)
Theorem user_has_token_undisturbed
    (ls : gmap string string) (evs : list Event) (w : World) (u : User) :
  run_undisturbed (AuthProvider ls) evs = Some w ->
  user (auth w) = Some u ->
  exists t : string, token (auth w) = Some t.
Proof.
  intros Hr Hu.
  destruct (tokenBacked_run evs _ _ (tokenBacked_mount ls) Hr) as [H _].
  exact (H u Hu).
Qed.

Lemma user_has_token_undisturbed_witness :
  run_undisturbed (AuthProvider ∅)
    [Login "ana@example.com" "pw" (Fulfilled "tok"); ProfileSettled (Fulfilled sampleUser)]
  = Some {| auth := {| user := Some sampleUser; token := Some "tok"; isLoading := false |};
            localStorage := {[ "fage_token" := "tok" ]}; inflight := 0;
            requests := [POST "/auth/login" (LoginBody "ana@example.com" "pw");
                         GET "/auth/me"] |}
  /\ exists t : string, Some "tok" = Some t.
Proof.
  split; [reflexivity|].
  apply (user_has_token_undisturbed ∅
           [Login "ana@example.com" "pw" (Fulfilled "tok");
            ProfileSettled (Fulfilled sampleUser)]
           {| auth := {| user := Some sampleUser; token := Some "tok"; isLoading := false |};
              localStorage := {[ "fage_token" := "tok" ]}; inflight := 0;
              requests := [POST "/auth/login" (LoginBody "ana@example.com" "pw");
                           GET "/auth/me"] |}
           sampleUser); reflexivity.
Defined.

(** C5, as stated, fails.  Two logins in a row leave two profile requests
    in flight; the first fails and clears the session, the second
    succeeds and installs its profile: a user without a token. *)
Lemma user_without_token_reachable :
  run (AuthProvider ∅)
    [Login "ana@example.com" "pw" (Fulfilled "tok1");
     Login "ana@example.com" "pw" (Fulfilled "tok2");
     ProfileSettled (Rejected unauthorized);
     ProfileSettled (Fulfilled sampleUser)]
  = Some {| auth := {| user := Some sampleUser; token := None; isLoading := false |};
            localStorage := ∅; inflight := 0;
            requests := [POST "/auth/login" (LoginBody "ana@example.com" "pw");
                         GET "/auth/me";
                         POST "/auth/login" (LoginBody "ana@example.com" "pw");
                         GET "/auth/me"] |}.
Proof. reflexivity. Qed.
End Session.

(* ===================================================================== *)
(** * The route gate *)
(* ===================================================================== *)

Section RouteGate.
Import AuthContext App.

(** C4, as the wrappers have it.  The wrappers read [isLoading] and [user]
    and never the token: the spinner while [isLoading], whatever the
    class; otherwise a redirect to [/login] on a protected route without
    user, a redirect to [/dashboard] on a public route with user, both
    replacing the history entry; otherwise the content.  Wherever a user is
    installed exactly when a token is present, this is the decision table
    of the gate. *)
Theorem wrapper_reads_user (a : AuthState) (v : Visibility) :
  wrapper v a
  = (if isLoading a then Spinner
     else match v, user a with
          | protected, None => Navigate "/login" true
          | public, Some _ => Navigate "/dashboard" true
          | _, _ => Children
          end)
  /\ ((user a = None <-> token a = None) -> wrapper v a = enact (AuthGate a v)).
Proof.
  split.
  - destruct v, a as [[u|] t []]; reflexivity.
  - intros [H1 H2]. unfold AuthGate, sessionState.
    destruct v, a as [[u|] [t|] []]; cbn in *; try reflexivity;
      solve [ discriminate (H1 eq_refl) | discriminate (H2 eq_refl) ].
Qed.

(** C4, as stated, fails at two kinds of session that the provider
    reaches.  Right after a login the session holds a token and no profile
    (it is [Authenticating], and not loading): the table shows the content
    of a protected route, the wrapper redirects to the login page.  After a
    logout under an outstanding profile request the session holds a
    profile and no token (it is [Unauthenticated]): the table redirects a
    protected route to the login page and shows a public one, the wrappers
    show the protected content and redirect the public route to the
    dashboard. *)
Lemma wrappers_differ_from_AuthGate :
  let a1 := {| user := None; token := Some "tok"; isLoading := false |} in
  let a2 := {| user := Some sampleUser; token := None; isLoading := false |} in
  option_map auth
    (run (AuthProvider ∅) [Login "ana@example.com" "pw" (Fulfilled "tok")])
  = Some a1
  /\ sessionState a1 = Authenticating
  /\ enact (AuthGate a1 protected) = Children
  /\ wrapper protected a1 = Navigate "/login" true
  /\ option_map auth
       (run (AuthProvider {[ "fage_token" := "tok" ]})
          [Logout; ProfileSettled (Fulfilled sampleUser)])
     = Some a2
  /\ sessionState a2 = Unauthenticated
  /\ enact (AuthGate a2 protected) = Navigate "/login" true
  /\ wrapper protected a2 = Children
  /\ enact (AuthGate a2 public) = Children
  /\ wrapper public a2 = Navigate "/dashboard" true.
Proof. cbn zeta. repeat split. Qed.

(** Right after a login the session holds a token and no profile yet; a
    protected route then still redirects to the login page. *)
Example ProtectedRoute_before_profile :
  ProtectedRoute {| user := None; token := Some "tok"; isLoading := false |}
  = Navigate "/login" true.
Proof. reflexivity. Qed.
End RouteGate.

(* ===================================================================== *)
(** * More on the session provider *)
(* ===================================================================== *)

Section SessionMore.
Import AuthContext.

Lemma run_invariant (P : World -> Prop) :
  (forall w ev w', P w -> step w ev = Some w' -> P w') ->
  forall evs w w', P w -> run w evs = Some w' -> P w'.
Proof.
  intros Hstep. induction evs as [|ev evs IH]; intros w w' Hw Hr; cbn in Hr.
  - now injection Hr as <-.
  - destruct (step w ev) as [w1|] eqn:Es; [|discriminate Hr].
    eapply IH; [|exact Hr]. eapply Hstep; eassumption.
Qed.

Lemma tokenEffect_isLoading (w : World) :
  isLoading (auth (tokenEffect w)) = true -> isLoading (auth w) = true.
Proof.
  unfold tokenEffect. destruct (truthy (token (auth w))); cbn; [auto | discriminate].
Qed.

Lemma rerender_isLoading (prev : option string) (w : World) :
  isLoading (auth (rerender prev w)) = true -> isLoading (auth w) = true.
Proof.
  unfold rerender. destruct (decide _); [auto | apply tokenEffect_isLoading].
Qed.

(** The effect of one step on each part of the world that a handler can
    reach only through the storage key [fage_token]. *)
Lemma step_other_keys (w w' : World) (ev : Event) (k : string) :
  k <> "fage_token" -> step w ev = Some w' ->
  localStorage w' !! k = localStorage w !! k.
Proof.
  intros Hk Hs. destruct ev as [e p res|e p n res| |res]; cbn in Hs.
  - injection Hs as <-. destruct res as [t|err]; [|reflexivity].
    unfold login. cbn [fst].
    match goal with |- context [rerender ?p ?w0] =>
      destruct (rerender_keeps p w0) as (_ & _ & Hl) end.
    rewrite Hl. cbn. now apply lookup_insert_ne.
  - injection Hs as <-. destruct res as [t|err]; [|reflexivity].
    unfold register. cbn [fst].
    match goal with |- context [rerender ?p ?w0] =>
      destruct (rerender_keeps p w0) as (_ & _ & Hl) end.
    rewrite Hl. cbn. now apply lookup_insert_ne.
  - injection Hs as <-. destruct (logout_clears w) as (_ & _ & Hl & _).
    rewrite Hl. now apply lookup_delete_ne.
  - destruct (inflight w); [discriminate Hs|]. injection Hs as <-.
    destruct res as [data|err].
    + destruct (fetchUser_settle_fulfilled data w) as (_ & Hl & _). now rewrite Hl.
    + destruct (fetchUser_settle_rejected err w) as (_ & Hl & _).
      rewrite Hl. now apply lookup_delete_ne.
Qed.

(** X2.  Whatever happens to a mounted provider, every storage key other
    than [fage_token] keeps the value it had when the provider mounted. *)
Theorem other_keys_untouched
    (ls : gmap string string) (evs : list Event) (w : World) (k : string) :
  String.eqb k "fage_token" = false ->
  run (AuthProvider ls) evs = Some w ->
  localStorage w !! k = ls !! k.
Proof.
  intros Hk Hr. apply String.eqb_neq in Hk.
  apply (run_invariant (fun w => localStorage w !! k = ls !! k)) with (3 := Hr).
  - intros w0 ev w1 H0 Hs. now rewrite (step_other_keys w0 w1 ev k Hk Hs).
  - unfold AuthProvider.
    match goal with |- context [tokenEffect ?w0] =>
      destruct (tokenEffect_keeps w0) as (_ & _ & Hl) end.
    now rewrite Hl.
Qed.

Lemma other_keys_untouched_witness :
  String.eqb "theme" "fage_token" = false
  /\ run (AuthProvider {[ "theme" := "dark" ]})
       [Login "ana@example.com" "pw" (Fulfilled "tok"); Logout]
     = Some {| auth := {| user := None; token := None; isLoading := false |};
               localStorage := {[ "theme" := "dark" ]}; inflight := 1;
               requests := [POST "/auth/login" (LoginBody "ana@example.com" "pw");
                            GET "/auth/me"] |}
  /\ ({[ "theme" := "dark" ]} : gmap string string) !! "theme" = Some "dark".
Proof.
  split; [reflexivity|]. split; [vm_compute; reflexivity|].
  rewrite <- (other_keys_untouched {[ "theme" := "dark" ]}
                [Login "ana@example.com" "pw" (Fulfilled "tok"); Logout]
                {| auth := {| user := None; token := None; isLoading := false |};
                   localStorage := {[ "theme" := "dark" ]}; inflight := 1;
                   requests := [POST "/auth/login" (LoginBody "ana@example.com" "pw");
                                GET "/auth/me"] |}
                "theme"); [reflexivity | reflexivity | vm_compute; reflexivity].
Defined.

Lemma step_isLoading (w w' : World) (ev : Event) :
  step w ev = Some w' -> isLoading (auth w') = true -> isLoading (auth w) = true.
Proof.
  intros Hs Hl. destruct ev as [e p res|e p n res| |res]; cbn in Hs.
  - injection Hs as <-. destruct res as [t|err]; [|exact Hl].
    unfold login in Hl. cbn [fst] in Hl. now apply rerender_isLoading in Hl.
  - injection Hs as <-. destruct res as [t|err]; [|exact Hl].
    unfold register in Hl. cbn [fst] in Hl. now apply rerender_isLoading in Hl.
  - injection Hs as <-. unfold logout in Hl. now apply rerender_isLoading in Hl.
  - destruct (inflight w); [discriminate Hs|]. injection Hs as <-.
    destruct res as [data|err].
    + destruct (fetchUser_settle_fulfilled data w) as (Ha & _).
      rewrite Ha in Hl. discriminate Hl.
    + destruct (fetchUser_settle_rejected err w) as (Ha & _).
      rewrite Ha in Hl. discriminate Hl.
Qed.

(** X3.  Once [isLoading] is false it stays false: no login, registration,
    logout or settled profile request turns the spinner back on. *)
Theorem isLoading_never_returns (evs : list Event) (w w' : World) :
  isLoading (auth w) = false ->
  run w evs = Some w' ->
  isLoading (auth w') = false.
Proof.
  intros Hw Hr.
  apply (run_invariant (fun w => isLoading (auth w) = false)) with (3 := Hr);
    [|exact Hw].
  intros w0 ev w1 H0 Hs.
  destruct (isLoading (auth w1)) eqn:E; [|reflexivity].
  rewrite (step_isLoading w0 w1 ev Hs E) in H0. discriminate H0.
Qed.

Lemma isLoading_never_returns_witness :
  isLoading (auth (AuthProvider ∅)) = false
  /\ run (AuthProvider ∅)
       [Login "ana@example.com" "pw" (Fulfilled "tok")]
     = Some {| auth := {| user := None; token := Some "tok"; isLoading := false |};
               localStorage := {[ "fage_token" := "tok" ]}; inflight := 1;
               requests := [POST "/auth/login" (LoginBody "ana@example.com" "pw");
                            GET "/auth/me"] |}
  /\ false = false.
Proof.
  split; [reflexivity|]. split; [vm_compute; reflexivity|].
  apply (isLoading_never_returns
           [Login "ana@example.com" "pw" (Fulfilled "tok")]
           (AuthProvider ∅)
           {| auth := {| user := None; token := Some "tok"; isLoading := false |};
              localStorage := {[ "fage_token" := "tok" ]}; inflight := 1;
              requests := [POST "/auth/login" (LoginBody "ana@example.com" "pw");
                           GET "/auth/me"] |});
    [reflexivity | vm_compute; reflexivity].
Defined.

(** X4.  While a mounted provider shows [isLoading], a profile request is
    in flight, no user is installed and the token is a non-empty string. *)
Theorem loading_means_fetching
    (ls : gmap string string) (evs : list Event) (w : World) :
  run (AuthProvider ls) evs = Some w ->
  isLoading (auth w) = true ->
  (0 < inflight w)%nat /\ user (auth w) = None /\ truthy (token (auth w)) = true.
Proof.
  intro Hr.
  apply (run_invariant
           (fun w => isLoading (auth w) = true ->
                     (0 < inflight w)%nat /\ user (auth w) = None
                     /\ truthy (token (auth w)) = true)) with (3 := Hr).
  - clear. intros w ev w' Hw Hs Hl.
    pose proof (step_isLoading w w' ev Hs Hl) as Hl0.
    destruct (Hw Hl0) as (Hi & Hu & Ht).
    destruct ev as [e p res|e p n res| |res]; cbn in Hs.
    + injection Hs as <-. destruct res as [t|err]; [|cbn; auto].
      unfold login in *. cbn [fst] in *. unfold rerender in *.
      destruct (decide _) as [E|E]; cbn in *.
      * rewrite <- E in Ht. cbn in Ht. auto.
      * unfold tokenEffect in *. cbn in *.
        destruct (negb (String.eqb t "")) eqn:Et; cbn in *; [|discriminate Hl].
        split; [lia | split; [exact Hu | first [reflexivity | assumption]]].
    + injection Hs as <-. destruct res as [t|err]; [|cbn; auto].
      unfold register in *. cbn [fst] in *. unfold rerender in *.
      destruct (decide _) as [E|E]; cbn in *.
      * rewrite <- E in Ht. cbn in Ht. auto.
      * unfold tokenEffect in *. cbn in *.
        destruct (negb (String.eqb t "")) eqn:Et; cbn in *; [|discriminate Hl].
        split; [lia | split; [exact Hu | first [reflexivity | assumption]]].
    + injection Hs as <-. unfold logout, rerender in Hl.
      destruct (decide _) as [E|E]; cbn in *.
      * rewrite <- E in Ht. discriminate Ht.
      * discriminate Hl.
    + destruct (inflight w); [discriminate Hs|]. injection Hs as <-.
      destruct res as [data|err].
      * destruct (fetchUser_settle_fulfilled data w) as (Ha & _).
        rewrite Ha in Hl. discriminate Hl.
      * destruct (fetchUser_settle_rejected err w) as (Ha & _).
        rewrite Ha in Hl. discriminate Hl.
  - unfold AuthProvider, tokenEffect. cbn [auth token].
    destruct (truthy (ls !! "fage_token")) eqn:Et; cbn; intro Hl.
    + split; [lia | split; [reflexivity | exact Et]].
    + discriminate Hl.
Qed.

Lemma loading_means_fetching_witness :
  run (AuthProvider {[ "fage_token" := "tok" ]})
    [Login "ana@example.com" "pw" (Rejected unauthorized)]
  = Some {| auth := {| user := None; token := Some "tok"; isLoading := true |};
            localStorage := {[ "fage_token" := "tok" ]}; inflight := 1;
            requests := [GET "/auth/me";
                         POST "/auth/login" (LoginBody "ana@example.com" "pw")] |}
  /\ (0 < 1)%nat.
Proof.
  split; [vm_compute; reflexivity|].
  apply (loading_means_fetching {[ "fage_token" := "tok" ]}
           [Login "ana@example.com" "pw" (Rejected unauthorized)]
           {| auth := {| user := None; token := Some "tok"; isLoading := true |};
              localStorage := {[ "fage_token" := "tok" ]}; inflight := 1;
              requests := [GET "/auth/me";
                           POST "/auth/login" (LoginBody "ana@example.com" "pw")] |});
    [vm_compute; reflexivity | reflexivity].
Defined.

(** X5.  [logout] sends no request, and calling it twice is the same as
    calling it once. *)
Theorem logout_idempotent (w : World) :
  logout (logout w) = logout w
  /\ requests (logout w) = requests w
  /\ inflight (logout w) = inflight w.
Proof.
  destruct (logout_clears w) as (_ & _ & _ & Hi & Hr).
  split; [|split; assumption].
  unfold logout, rerender, tokenEffect, setUser, setToken, setIsLoading, removeItem.
  cbn.
  destruct (decide (None = token (auth w))) as [E|E]; cbn;
    (destruct (decide (None = None)) as [_|N]; [|now destruct N]);
    now rewrite delete_delete_eq.
Qed.

(** X6.  A reload picks up where the storage says: after a successful
    login or registration, mounting the provider anew on the storage
    resumes with the token just issued and, when that token is not empty,
    checks it with one profile request; after a logout, mounting anew
    gives a session without user and token that is not loading and has
    sent nothing. *)
Theorem reload_follows_storage (w : World) (email password fullName t : string) :
  let fresh := fun w' => AuthProvider (localStorage w') in
  (forall w', w' = fst (login email password (Fulfilled t) w)
              \/ w' = fst (register email password fullName (Fulfilled t) w) ->
      token (auth (fresh w')) = Some t
      /\ user (auth (fresh w')) = None
      /\ (truthy (Some t) = true ->
          isLoading (auth (fresh w')) = true
          /\ requests (fresh w') = [GET "/auth/me"]))
  /\ fresh (logout w)
     = {| auth := {| user := None; token := None; isLoading := false |};
          localStorage := delete "fage_token" (localStorage w);
          inflight := 0; requests := [] |}.
Proof.
  cbn zeta. split.
  - intros w' Hw'.
    assert (Hl : localStorage w' !! "fage_token" = Some t).
    { destruct Hw' as [-> | ->].
      - apply (login_fulfilled email password t w).
      - apply (register_fulfilled email password fullName t w). }
    unfold AuthProvider, tokenEffect. cbn [auth token]. rewrite Hl.
    destruct (truthy (Some t)); cbn; repeat split; auto; discriminate.
  - destruct (logout_clears w) as (_ & _ & Hl & _).
    unfold AuthProvider, tokenEffect. rewrite Hl. cbn [auth token].
    rewrite lookup_delete_eq. reflexivity.
Qed.

(** What storing a fresh token sends: one profile request exactly when the
    token is a non-empty string different from the one before. *)
Lemma token_stored_requests (prev : option string) (t : string) (w : World) :
  let w' := rerender prev (setToken (Some t) (setItem "fage_token" t w)) in
  let fetches := truthy (Some t) && negb (bool_decide (prev = Some t)) in
  requests w' = (requests w ++ (if fetches then [GET "/auth/me"] else []))%list
  /\ inflight w' = (inflight w + (if fetches then 1 else 0))%nat.
Proof.
  cbn zeta. unfold rerender. cbn [auth token setToken setItem].
  destruct (decide (Some t = prev)) as [E|E].
  - rewrite bool_decide_eq_true_2 by auto. rewrite andb_false_r. cbn.
    now rewrite app_nil_r, Nat.add_0_r.
  - rewrite bool_decide_eq_false_2 by auto. rewrite andb_true_r.
    unfold tokenEffect. cbn [auth token setToken setItem].
    destruct (truthy (Some t)); cbn.
    + split; [reflexivity | lia].
    + now rewrite app_nil_r, Nat.add_0_r.
Qed.

(** X7.  What a successful [login] or [register] sends: its own request,
    followed by one profile request exactly when the new token is a
    non-empty string different from the current token.  A user installed
    before stays installed. *)
Theorem login_requests (w : World) (email password fullName t : string) :
  let fetches := truthy (Some t) && negb (bool_decide (token (auth w) = Some t)) in
  (let w' := fst (login email password (Fulfilled t) w) in
   requests w'
   = (requests w ++ [POST "/auth/login" (LoginBody email password)]
      ++ (if fetches then [GET "/auth/me"] else []))%list
   /\ inflight w' = (inflight w + (if fetches then 1 else 0))%nat
   /\ user (auth w') = user (auth w))
  /\ (let w' := fst (register email password fullName (Fulfilled t) w) in
      requests w'
      = (requests w ++ [POST "/auth/register" (RegisterBody email password fullName)]
         ++ (if fetches then [GET "/auth/me"] else []))%list
      /\ inflight w' = (inflight w + (if fetches then 1 else 0))%nat
      /\ user (auth w') = user (auth w)).
Proof.
  cbn zeta. split.
  - destruct (login_fulfilled email password t w) as (_ & _ & Hu).
    split; [|split; [|exact Hu]]; unfold login; cbn [fst];
      match goal with |- context [rerender ?p (setToken _ (setItem _ _ ?w0))] =>
        destruct (token_stored_requests p t w0) as (Hr & Hi) end.
    + rewrite Hr. cbn. now rewrite <- app_assoc.
    + rewrite Hi. reflexivity.
  - destruct (register_fulfilled email password fullName t w) as (_ & _ & Hu).
    split; [|split; [|exact Hu]]; unfold register; cbn [fst];
      match goal with |- context [rerender ?p (setToken _ (setItem _ _ ?w0))] =>
        destruct (token_stored_requests p t w0) as (Hr & Hi) end.
    + rewrite Hr. cbn. now rewrite <- app_assoc.
    + rewrite Hi. reflexivity.
Qed.
End SessionMore.

(* ===================================================================== *)
(** * The route table *)
(* ===================================================================== *)

Section RouteTable.
Import AuthContext App AppRoutes.

(** X8.  From every address and in every session, following the redirects
    of the route table ends after at most two of them, and every redirect
    on the way replaces the history entry.  What is then on the page
    depends on the session: the spinner while [isLoading]; without a user
    the sign-up form at [/register] and the sign-in form everywhere else;
    with a user the requested screen on the four protected paths and the
    dashboard everywhere else. *)
Theorem Routes_settle (loc : Location) (a : AuthState) :
  settle 2 loc a
  = Some (if isLoading a then ShowSpinner
          else match user a, loc with
               | None, at_register => Show RegisterScreen
               | None, _ => Show LoginScreen
               | Some _, at_setup => Show AccountSetupScreen
               | Some _, at_campaigns => Show CampaignInsightsScreen
               | Some _, at_settings => Show SettingsScreen
               | Some _, _ => Show DashboardScreen
               end)
  /\ (forall to replace, Routes loc a = Redirect to replace -> replace = true).
Proof.
  split.
  - destruct a as [[u|] t []], loc; reflexivity.
  - intros to replace.
    destruct a as [[u|] t []], loc; cbn; intro H;
      try discriminate H; now injection H.
Qed.
End RouteTable.

(* ===================================================================== *)
(** * The sign-in and sign-up forms *)
(* ===================================================================== *)

Section Forms.
Import AuthContext.

End Forms.

(* ===================================================================== *)
(** * The other handlers of the account set-up page *)
(* ===================================================================== *)

Section AccountSetupMore.
Import Settings AccountSetup AccountSetupPage.

(** X10.  The message after returning from a platform's authorisation
    page: an [error] on either platform gives the failure message, with
    the [msg] parameter or "Unknown error", even when the other platform
    reports [connected]; otherwise a connected Google wins over a connected
    Meta; with neither parameter set to one of the two words the message
    is left alone. *)
Theorem callbackMessage_priority
    (metaParam googleParam msgParam : option string) (message : Message) :
  callbackMessage metaParam googleParam msgParam message
  = if bool_decide (metaParam = Some "error") || bool_decide (googleParam = Some "error")
    then {| type := "error";
            text := "Connection failed: " ++ orElse msgParam "Unknown error" |}
    else if bool_decide (googleParam = Some "connected")
    then {| type := "success"; text := "Google Ads connected successfully!" |}
    else if bool_decide (metaParam = Some "connected")
    then {| type := "success"; text := "Meta Ads connected successfully!" |}
    else message.
Proof.
  unfold callbackMessage.
  destruct (decide (metaParam = Some "error" \/ googleParam = Some "error")) as [E|E].
  - destruct E as [E|E]; rewrite (bool_decide_eq_true_2 _ E); cbn;
      rewrite ?orb_true_r; reflexivity.
  - rewrite (bool_decide_eq_false_2 (metaParam = Some "error")) by tauto.
    rewrite (bool_decide_eq_false_2 (googleParam = Some "error")) by tauto.
    cbn.
    destruct (decide (googleParam = Some "connected")) as [G|G];
      [rewrite (bool_decide_eq_true_2 _ G) | rewrite (bool_decide_eq_false_2 _ G)];
      [reflexivity|].
    destruct (decide (metaParam = Some "connected")) as [M|M];
      [rewrite (bool_decide_eq_true_2 _ M) | rewrite (bool_decide_eq_false_2 _ M)];
      reflexivity.
Qed.

(** X11.  The budget that [saveSettings] sends is never NaN: text that
    does not parse is sent as 0.  A negative budget is sent as it parses,
    and whenever the deploy gate is open the budget sent is the parsed,
    positive one. *)
Theorem saveSettings_budget (f : Fields) (res : Settled unit) :
  let sent := Body.monthly_budget (fst (saveSettings f res)) in
  JsNumber.isNaN sent = false
  /\ (JsNumber.isNaN (JsNumber.parseFloat (budget f)) = true -> sent = JsNumber.ofZ 0)
  /\ (JsNumber.lt (JsNumber.parseFloat (budget f)) (JsNumber.ofZ 0) = true ->
      sent = JsNumber.parseFloat (budget f))
  /\ (forall accounts, canDeploy accounts (budget f) = true ->
      sent = JsNumber.parseFloat (budget f)
      /\ JsNumber.gt sent (JsNumber.ofZ 0) = true).
Proof.
  cbn. unfold numberOr, truthyNumber.
  split; [|split; [|split]].
  - destruct (JsNumber.parseFloat (budget f)); reflexivity.
  - destruct (JsNumber.parseFloat (budget f)); intro H; try discriminate H; reflexivity.
  - destruct (JsNumber.parseFloat (budget f)) as [s|s| |s m e]; intro H;
      try discriminate H; try reflexivity; destruct s; discriminate H.
  - intros accounts H. rewrite canDeploy_unfold in H.
    apply andb_true_iff in H as [_ H]. unfold budgetPositive in H.
    destruct (JsNumber.parseFloat (budget f)) as [s|s| |s m e];
      try discriminate H; try (destruct s; discriminate H); auto.
Qed.

(** X12.  A click on the deploy button posts to the deploy endpoint only
    when at least one account is connected, the budget is positive and no
    deployment is under way; otherwise the click changes nothing.  When
    the request settles, either way, [deploying] is off again. *)
Theorem clickDeploy_gated
    (accounts : list AdAccount.t) (budget : string) (res : Settled unit)
    (st : DeployState) :
  let st' := clickDeploy accounts budget res st in
  (st' = st /\ deployDisabled accounts budget st = true)
  \/ (posted st' = (posted st ++ ["/automation/deploy"])%list
      /\ deploying st' = false
      /\ deploying st = false
      /\ (1 <= connectedCount accounts)%nat
      /\ budgetPositive budget = true).
Proof.
  cbn zeta. unfold clickDeploy.
  destruct (deployDisabled accounts budget st) eqn:E; [left; auto | right].
  unfold deployDisabled in E. apply orb_false_iff in E as [Hc Hd].
  apply negb_false_iff in Hc. rewrite canDeploy_unfold in Hc.
  apply andb_true_iff in Hc as [Hn Hb]. apply Nat.leb_le in Hn.
  destruct res; cbn; auto.
Qed.
End AccountSetupMore.

(* ===================================================================== *)
(** * The rest of the settings page *)
(* ===================================================================== *)

Section SettingsMore.
Import Settings SettingsPage.
Variable Number_toString : JsNumber.number -> string.

Lemma lt_not_gt (x y : JsNumber.number) :
  JsNumber.lt x y = true -> JsNumber.gt x y = false.
Proof.
  unfold JsNumber.lt, JsNumber.gt, SFltb. rewrite (SFcompare_swap x y).
  destruct (SFcompare x y) as [[]|]; cbn; intro H; try discriminate H; reflexivity.
Qed.

(** X13.  Whenever the total under the sliders looks right (the test with
    [< 0.01]), "Save Allocations" passes its own test (with [> 0.01]) and
    sends the allocation.  The converse fails for a total that is NaN: the
    total is shown as wrong, and the save goes through all the same. *)
Theorem totalLooksRight_saves (a : Allocations) (res : Settled unit) :
  (totalLooksRight a = true ->
   fst (saveBudget Number_toString a res) = [PUT "/clients/me/budget" (BudgetBody a)])
  /\ (JsNumber.isNaN (total a) = true ->
      totalLooksRight a = false
      /\ fst (saveBudget Number_toString a res)
         = [PUT "/clients/me/budget" (BudgetBody a)]).
Proof.
  split.
  - intro H. apply saveBudget_accepts. unfold offTarget. now apply lt_not_gt.
  - intro H. split.
    + unfold totalLooksRight. destruct (total a); try discriminate H. reflexivity.
    + apply saveBudget_accepts, offTarget_NaN, H.
Qed.

(** X14.  [fetchData] is all or nothing: when either of its two requests
    fails, client, budget, form and allocation stay as they were, also the
    part the other request did deliver; when both succeed the allocation
    is the stored one, unchanged.  In both cases [loading] is off
    afterwards.  After a failed load of a freshly opened page the
    allocation is still the initial 50/35/15, which "Save Allocations"
    accepts and sends. *)
Theorem fetchData_all_or_nothing
    (clientRes : Settled Client.t) (budgetRes : Settled BudgetSettings.t)
    (st : PageState) :
  let st' := fetchData clientRes budgetRes st in
  loading st' = false
  /\ message st' = message st
  /\ ((exists e, clientRes = Rejected e) \/ (exists e, budgetRes = Rejected e) ->
      client st' = client st /\ budget st' = budget st
      /\ form st' = form st /\ allocations st' = allocations st)
  /\ (forall c b, clientRes = Fulfilled c -> budgetRes = Fulfilled b ->
      client st' = Some c /\ budget st' = Some b
      /\ allocations st'
         = {| prospecting_pct := BudgetSettings.prospecting_pct b;
              retargeting_pct := BudgetSettings.retargeting_pct b;
              testing_pct := BudgetSettings.testing_pct b |})
  /\ ((exists e, clientRes = Rejected e) \/ (exists e, budgetRes = Rejected e) ->
      forall res,
        fst (saveBudget Number_toString
               (allocations (fetchData clientRes budgetRes initial)) res)
        = [PUT "/clients/me/budget" (BudgetBody (allocations initial))]).
Proof.
  cbn zeta.
  split; [destruct clientRes, budgetRes; reflexivity|].
  split; [destruct clientRes, budgetRes; reflexivity|].
  assert (Hfail : forall s,
             (exists e, clientRes = Rejected e) \/ (exists e, budgetRes = Rejected e) ->
             allocations (fetchData clientRes budgetRes s) = allocations s
             /\ client (fetchData clientRes budgetRes s) = client s
             /\ budget (fetchData clientRes budgetRes s) = budget s
             /\ form (fetchData clientRes budgetRes s) = form s).
  { intros s [[e ->]|[e ->]]; [|destruct clientRes]; cbn; auto. }
  split; [|split].
  - intro H. destruct (Hfail st H) as (Ha & Hc & Hb & Hf). auto.
  - intros c b -> ->. cbn. auto.
  - intros H res. destruct (Hfail initial H) as (Ha & _). rewrite Ha.
    apply saveBudget_accepts. reflexivity.
Qed.
End SettingsMore.

(* ===================================================================== *)
(** * The side bar *)
(* ===================================================================== *)

Section SideBar.
Import Layout.
Variable toUpperCase : string -> string.

Lemma length_substring_le (n m : nat) (s : string) :
  (String.length (String.substring n m s) <= m)%nat.
Proof.
  revert n m. induction s as [|c s IH]; intros n m; cbn.
  - destruct n, m; cbn; lia.
  - destruct n as [|n]; [destruct m as [|m]; cbn; [lia|]|apply IH].
    specialize (IH 0%nat m). lia.
Qed.

Lemma split_space_no_space (s : string) :
  forall p, In p (split_space s) ->
  forall c, In c (list_ascii_of_string p) -> c <> " "%char.
Proof.
  induction s as [|a s IH]; cbn; intros p Hp c Hc.
  - destruct Hp as [<-|[]]. destruct Hc.
  - destruct (Ascii.eqb a " ") eqn:Ea.
    + destruct Hp as [<-|Hp]; [destruct Hc | eapply IH; eassumption].
    + destruct (split_space s) as [|piece rest] eqn:Es.
      * destruct Hp as [<-|[]]. cbn in Hc. destruct Hc as [<-|[]].
        intros ->. discriminate Ea.
      * destruct Hp as [<-|Hp].
        -- cbn in Hc. destruct Hc as [<-|Hc].
           ++ intros ->. discriminate Ea.
           ++ apply (IH piece); [now left | exact Hc].
        -- apply (IH p); [now right | exact Hc].
Qed.

Lemma chars_of_append (a b : string) :
  list_ascii_of_string (a ++ b)
  = (list_ascii_of_string a ++ list_ascii_of_string b)%list.
Proof.
  induction a as [|c a IH]; [reflexivity|].
  change (String.append (String c a) b) with (String c (String.append a b)).
  cbn [list_ascii_of_string app]. f_equal. exact IH.
Qed.

Lemma chars_of_concat (l : list string) (c : ascii) :
  In c (list_ascii_of_string (String.concat "" l)) ->
  exists p, In p l /\ In c (list_ascii_of_string p).
Proof.
  induction l as [|x l IH]; cbn; [intros []|].
  destruct l as [|y l].
  - intro H. exists x. auto.
  - rewrite chars_of_append. change (String.append "" ?s) with s. intro H.
    apply in_app_or in H as [H|H].
    + exists x. auto.
    + destruct (IH H) as (p & Hp & Hc). exists p. auto.
Qed.

Lemma firstOf_char (p : string) (c : ascii) :
  In c (list_ascii_of_string (firstOf p)) -> In c (list_ascii_of_string p).
Proof. destruct p; cbn; [auto | intros [<-|[]]; now left]. Qed.

(** X15.  The avatar text in the side bar has at most two characters, and
    is the question mark when no user is signed in or the name is empty.
    The letters it is cut from are first letters of the words of the name
    and never spaces, however many spaces separate the words. *)
Theorem initials_short (user : option User) :
  (String.length (initials toUpperCase user) <= 2)%nat
  /\ (user = None -> initials toUpperCase user = "?")
  /\ (forall u, user = Some u ->
      (full_name u = "" -> initials toUpperCase user = "?")
      /\ (full_name u <> "" ->
          initials toUpperCase user
          = String.substring 0 2 (toUpperCase (firstLetters (full_name u))))
      /\ (forall c, In c (list_ascii_of_string (firstLetters (full_name u))) ->
          c <> " "%char
          /\ exists word, In word (split_space (full_name u))
                          /\ firstOf word = String c EmptyString)).
Proof.
  split; [|split].
  - unfold initials. destruct user as [u|]; [|cbn; lia].
    destruct (String.eqb (full_name u) ""); [cbn; lia|].
    apply length_substring_le.
  - intros ->. reflexivity.
  - intros u ->. split; [|split].
    + intro Hn. cbn. now rewrite Hn.
    + intro Hn. cbn. apply String.eqb_neq in Hn. now rewrite Hn.
    + intros c Hc. unfold firstLetters in Hc.
      apply chars_of_concat in Hc as (p & Hp & Hc).
      apply in_map_iff in Hp as (word & <- & Hw).
      split.
      * apply (split_space_no_space (full_name u) word Hw).
        now apply firstOf_char.
      * exists word. split; [exact Hw|].
        destruct word; cbn in *; [destruct Hc | destruct Hc as [<-|[]]; reflexivity].
Qed.
End SideBar.

(* ===================================================================== *)
(** * The dashboard *)
(* ===================================================================== *)

Section DashboardFacts.
Import JsNumber NumberFormat Dashboard.
Variable Number_toString : number -> string.

Lemma length_append (a b : string) :
  String.length (String.append a b) = (String.length a + String.length b)%nat.
Proof.
  induction a as [|c a IH]; [reflexivity|].
  change (String.append (String c a) b) with (String c (String.append a b)).
  cbn [String.length]. now rewrite IH.
Qed.

Lemma append_assoc3 (a b c : string) :
  String.append (String.append a b) c = String.append a (String.append b c).
Proof.
  induction a as [|x a IH]; [reflexivity|].
  change (String.append (String x a) b) with (String x (String.append a b)).
  change (String.append (String x (String.append a b)) c)
    with (String x (String.append (String.append a b) c)).
  change (String.append (String x a) (String.append b c))
    with (String x (String.append a (String.append b c))).
  now rewrite IH.
Qed.

Lemma length_zeros (n : nat) : String.length (zeros n) = n.
Proof. induction n as [|n IH]; cbn; [reflexivity | now rewrite IH]. Qed.

Lemma length_substring (n m : nat) (s : string) :
  (n + m <= String.length s)%nat ->
  String.length (String.substring n m s) = m.
Proof.
  revert n m. induction s as [|c s IH]; intros n m H; cbn in H.
  - assert (n = 0%nat /\ m = 0%nat) as [-> ->] by lia. reflexivity.
  - destruct n as [|n]; cbn.
    + destruct m as [|m]; cbn; [reflexivity|].
      rewrite (IH 0%nat m); [reflexivity | lia].
    + apply IH. lia.
Qed.

(** With [f] fraction digits asked for, at least one digit stands before
    the point and exactly [f] after it. *)
Lemma withPoint_shape (f : nat) (digits : string) :
  f <> 0%nat ->
  exists a b : string,
    withPoint f digits = String.append a (String.append "." b)
    /\ String.length b = f /\ (1 <= String.length a)%nat.
Proof.
  intro Hf. destruct f as [|f]; [now destruct Hf|].
  unfold withPoint.
  set (d := String.append (zeros (S (S f) - String.length digits)) digits).
  assert (Hd : (S (S f) <= String.length d)%nat).
  { unfold d. rewrite length_append, length_zeros. lia. }
  exists (String.substring 0 (String.length d - S f) d),
         (String.substring (String.length d - S f) (S f) d).
  split; [reflexivity|]. split.
  - apply length_substring. lia.
  - rewrite length_substring by lia. lia.
Qed.

(** Below [1e21] in magnitude. *)
Lemma toFixed_shape (f : nat) (x : number) :
  f <> 0%nat -> isFinite x = true -> le (ofDecimal 1 21) (abs x) = false ->
  exists a b : string,
    toFixed Number_toString f x = String.append a (String.append "." b)
    /\ String.length b = f.
Proof.
  intros Hf Hx Hb. destruct x as [s|s| |s m e]; try discriminate Hx.
  - cbn [toFixed].
    destruct (withPoint_shape f "0" Hf) as (a & b & E & Hl & _).
    exists a, b. auto.
  - cbn [toFixed]. cbn [abs SFabs] in Hb. rewrite Hb.
    destruct (withPoint_shape f (decimalString (scaledInteger f m e)) Hf)
      as (a & b & E & Hl & _).
    rewrite E. exists (String.append (if s then "-" else "") a), b.
    split; [|exact Hl].
    destruct s; reflexivity.
Qed.

Lemma toFixed_0 (x : number) :
  toFixed Number_toString 0 x = toFixed0 Number_toString x.
Proof.
  destruct x as [s|s| |s m e]; try reflexivity.
  cbn [toFixed toFixed0 withPoint]. unfold scaledInteger.
  replace (Z.to_pos (Z.pos m * 10 ^ Z.of_nat 0)) with m; [reflexivity|].
  change (Z.of_nat 0) with 0. now rewrite Z.pow_0_r, Z.mul_1_r.
Qed.

(** X16.  How [formatCurrency] prints an amount.  NaN prints as [$NaN]
    and infinity as [$Infinityk].  A negative amount is never shortened to
    thousands, whatever its size.  A finite amount below 1000 and of
    magnitude below [1e21] prints with exactly two digits after the point.
    An amount of 1000 or more whose thousandth, as the program computes
    it, is finite and below [1e21] prints that thousandth with exactly one
    digit after the point, followed by [k]. *)
Theorem formatCurrency_shape (val : number) :
  (isNaN val = true -> formatCurrency Number_toString val = "$NaN")
  /\ formatCurrency Number_toString Infinity = "$Infinityk"
  /\ (lt val (ofZ 0) = true ->
      formatCurrency Number_toString val
      = String.append "$" (toFixed Number_toString 2 val))
  /\ (ge val (ofZ 1000) = false -> isFinite val = true ->
      le (ofDecimal 1 21) (abs val) = false ->
      exists a b : string,
        formatCurrency Number_toString val
        = String.append "$" (String.append a (String.append "." b))
        /\ String.length b = 2%nat)
  /\ (ge val (ofZ 1000) = true ->
      isFinite (div val (ofZ 1000)) = true ->
      le (ofDecimal 1 21) (abs (div val (ofZ 1000))) = false ->
      exists a b : string,
        formatCurrency Number_toString val
        = String.append "$" (String.append a (String.append "." (String.append b "k")))
        /\ String.length b = 1%nat).
Proof.
  split; [|split; [|split; [|split]]].
  - destruct val; intro H; try discriminate H. reflexivity.
  - reflexivity.
  - intro H. unfold formatCurrency.
    assert (ge val (ofZ 1000) = false) as ->; [|reflexivity].
    destruct val as [s|s| |s m e]; try discriminate H;
      destruct s; try discriminate H; reflexivity.
  - intros Hge Hfin Hb. unfold formatCurrency. rewrite Hge.
    destruct (toFixed_shape 2 val) as (a & b & E & Hl); auto.
    rewrite E. exists a, b. auto.
  - intros Hge Hfin Hb. unfold formatCurrency. rewrite Hge.
    destruct (toFixed_shape 1 (div val (ofZ 1000))) as (a & b & E & Hl); auto.
    rewrite E. exists a, b. split; [|exact Hl].
    f_equal. rewrite !append_assoc3. reflexivity.
Qed.

(** X17.  When loading the overview fails, whatever was loaded before is
    dropped and the cards show zeros: [$0.00] for spend, revenue and CPA,
    [0.00x] for ROAS and [0%] for budget usage; [loading] is off. *)
Theorem fetchDashboard_failed (e : AxiosError) (st : PageState) :
  let st' := fetchDashboard (Rejected e) st in
  data st' = None
  /\ loading st' = false
  /\ cards Number_toString st'
     = {| spendCard := "$0.00"; revenueCard := "$0.00"; roasCard := "0.00x";
          cpaCard := "$0.00"; budgetUsageCard := "0%" |}.
Proof. repeat split. Qed.
End DashboardFacts.

(* ===================================================================== *)
(** * Loading the account set-up page; the gate and the accounts *)
(* ===================================================================== *)

Section AccountSetupLoad.
Import Settings AccountSetup AccountSetupPage.
Variable Number_toString : JsNumber.number -> string.

(** X18.  The gate looks at the accounts one by one: for two lists put
    together it is open exactly when it is open for one of them, so one
    more account never closes it; an account that is not connected changes
    nothing, and without accounts the gate is closed. *)
Theorem canDeploy_accounts (l1 l2 : list AdAccount.t) (budget : string) :
  canDeploy (l1 ++ l2) budget = canDeploy l1 budget || canDeploy l2 budget
  /\ (forall a, isConnected a = false ->
      canDeploy (a :: l1) budget = canDeploy l1 budget)
  /\ (forall a, isConnected a = true ->
      canDeploy (a :: l1) budget = budgetPositive budget)
  /\ canDeploy [] budget = false.
Proof.
  assert (Hc : forall l, canDeploy l budget
                         = existsb isConnected l && budgetPositive budget).
  { intro l. unfold canDeploy, budgetPositive. now rewrite anyConnected. }
  rewrite !Hc.
  split; [|split; [|split]].
  - rewrite existsb_app. apply andb_orb_distrib_l.
  - intros a Ha. rewrite Hc. cbn [existsb]. now rewrite Ha.
  - intros a Ha. rewrite Hc. cbn [existsb]. now rewrite Ha.
  - reflexivity.
Qed.

(** X19.  [fetchData] of the account set-up page is all or nothing: when
    any of its three requests fails, accounts and fields stay as they
    were, so on a freshly opened page the deploy gate stays closed.  When
    all succeed and the stored budget is 0 or NaN, the budget field is
    left empty, which closes the gate whatever the accounts, and saving
    sends 0 back.  [loading] is off afterwards in every case. *)
Theorem fetchData_gate
    (clientRes : Settled ClientData.t) (accountsRes : Settled (list AdAccount.t))
    (statusRes : Settled AutomationStatus.t) (st : LoadState) :
  let load := fetchData Number_toString clientRes accountsRes statusRes in
  loading (load st) = false
  /\ ((exists e, clientRes = Rejected e) \/ (exists e, accountsRes = Rejected e)
      \/ (exists e, statusRes = Rejected e) ->
      accounts (load st) = accounts st /\ fields (load st) = fields st
      /\ client (load st) = client st
      /\ canDeploy (accounts (load initial)) (budget (fields (load initial))) = false)
  /\ (forall d accs status,
      clientRes = Fulfilled d -> accountsRes = Fulfilled accs ->
      statusRes = Fulfilled status ->
      accounts (load st) = accs
      /\ (ClientData.monthly_budget d = JsNumber.NaN
          \/ (exists s, ClientData.monthly_budget d = S754_zero s) ->
          budget (fields (load st)) = ""
          /\ canDeploy accs (budget (fields (load st))) = false
          /\ forall res,
              Body.monthly_budget (fst (saveSettings (fields (load st)) res))
              = JsNumber.ofZ 0)).
Proof.
  cbn zeta.
  split; [destruct clientRes, accountsRes, statusRes; reflexivity|].
  split.
  - assert (Hfail : forall s,
               (exists e, clientRes = Rejected e) \/ (exists e, accountsRes = Rejected e)
               \/ (exists e, statusRes = Rejected e) ->
               accounts (fetchData Number_toString clientRes accountsRes statusRes s)
               = accounts s
               /\ fields (fetchData Number_toString clientRes accountsRes statusRes s)
                  = fields s
               /\ client (fetchData Number_toString clientRes accountsRes statusRes s)
                  = client s).
    { intros s [[e ->]|[[e ->]|[e ->]]];
        [|destruct clientRes|destruct clientRes, accountsRes]; cbn; auto. }
    intro H. destruct (Hfail st H) as (Ha & Hf & Hc).
    destruct (Hfail initial H) as (Ha' & Hf' & _).
    rewrite Ha, Hf, Hc, Ha', Hf'. auto.
  - intros d accs status -> -> ->. cbn. split; [reflexivity|].
    intros Hz.
    assert (E : budgetText Number_toString (ClientData.monthly_budget d) = "").
    { unfold budgetText. destruct Hz as [->|[s ->]]; reflexivity. }
    rewrite E. split; [reflexivity|]. split; [|reflexivity].
    unfold canDeploy. apply andb_false_r.
Qed.

(** X20.  Loading and then saving without touching the budget field sends
    the stored budget back, for every stored budget that is neither 0 nor
    NaN and that the runtime prints in a form [parseFloat] reads back. *)
Theorem budget_round_trip
    (d : ClientData.t) (accs : list AdAccount.t) (status : AutomationStatus.t)
    (st : LoadState) (res : Settled unit) :
  truthyNumber (ClientData.monthly_budget d) = true ->
  JsNumber.parseFloat (Number_toString (ClientData.monthly_budget d))
  = ClientData.monthly_budget d ->
  Body.monthly_budget
    (fst (saveSettings
            (fields (fetchData Number_toString (Fulfilled d) (Fulfilled accs)
                       (Fulfilled status) st)) res))
  = ClientData.monthly_budget d.
Proof.
  intros Hnz Hrt. cbn. unfold budgetText, numberOr.
  now rewrite Hnz, Hrt, Hnz.
Qed.
End AccountSetupLoad.

Lemma budget_round_trip_witness :
  let d := {| AccountSetupPage.ClientData.monthly_budget := JsNumber.ofZ 500;
              AccountSetupPage.ClientData.country := Some "DE";
              AccountSetupPage.ClientData.meta_app_id := None;
              AccountSetupPage.ClientData.meta_app_secret := None;
              AccountSetupPage.ClientData.google_client_id := None;
              AccountSetupPage.ClientData.google_client_secret := None;
              AccountSetupPage.ClientData.google_developer_token := None;
              AccountSetupPage.ClientData.ga4_property_id := None |} in
  let status := {| AccountSetupPage.AutomationStatus.automation_status := "inactive";
                   AccountSetupPage.AutomationStatus.monthly_budget := JsNumber.ofZ 500;
                   AccountSetupPage.AutomationStatus.country := "DE";
                   AccountSetupPage.AutomationStatus.connected_meta := JsNumber.ofZ 0;
                   AccountSetupPage.AutomationStatus.connected_google := JsNumber.ofZ 0 |} in
  JsNumber.parseFloat "500" = JsNumber.ofZ 500
  /\ AccountSetupPage.Body.monthly_budget
       (fst (AccountSetupPage.saveSettings
               (AccountSetupPage.fields
                  (AccountSetupPage.fetchData (fun _ => "500") (Fulfilled d)
                     (Fulfilled []) (Fulfilled status) AccountSetupPage.initial))
               (Fulfilled tt)))
     = JsNumber.ofZ 500.
Proof.
  cbn zeta. split; [reflexivity|].
  apply (budget_round_trip (fun _ => "500")); reflexivity.
Defined.

(* ===================================================================== *)
(** * From the sign-in form to the dashboard, and out again *)
(* ===================================================================== *)

Section EndToEnd.
Import AuthContext App AppRoutes.

(** A successful login on a session without token. *)
Lemma login_fresh (w : World) (email password t : string) :
  token (auth w) = None -> truthy (Some t) = true ->
  let w1 := fst (login email password (Fulfilled t) w) in
  auth w1 = {| user := user (auth w); token := Some t; isLoading := isLoading (auth w) |}
  /\ localStorage w1 = <[ "fage_token" := t ]> (localStorage w)
  /\ inflight w1 = S (inflight w)
  /\ requests w1
     = (requests w ++ [POST "/auth/login" (LoginBody email password); GET "/auth/me"])%list.
Proof.
  intros Hn Ht. cbn zeta. unfold login, rerender. cbn [fst].
  cbn [auth token setToken setItem send]. rewrite Hn.
  destruct (decide (Some t = None)) as [N|_]; [discriminate N|].
  unfold tokenEffect. cbn [auth token setToken setItem send]. rewrite Ht.
  cbn. rewrite <- app_assoc. auto.
Qed.

(** X21.  Signing in on a browser without stored token: after the login
    answer the token is stored and one profile request is under way, and
    until it settles every address still leads to a sign-in or sign-up
    form; once the profile arrives every address leads to a protected
    screen.  Two requests were sent in all. *)
Theorem sign_in_end_to_end
    (ls : gmap string string) (email password t : string) (u : User) :
  ls !! "fage_token" = None -> truthy (Some t) = true ->
  exists w1 w2 : World,
    run (AuthProvider ls) [Login email password (Fulfilled t)] = Some w1
    /\ run w1 [ProfileSettled (Fulfilled u)] = Some w2
    /\ localStorage w1 !! "fage_token" = Some t
    /\ inflight w1 = 1%nat
    /\ (forall loc, exists s,
          settle 2 loc (auth w1) = Some (Show s) /\ isProtected s = false)
    /\ auth w2 = {| user := Some u; token := Some t; isLoading := false |}
    /\ inflight w2 = 0%nat
    /\ requests w2 = [POST "/auth/login" (LoginBody email password); GET "/auth/me"]
    /\ (forall loc, exists s,
          settle 2 loc (auth w2) = Some (Show s) /\ isProtected s = true).
Proof.
  intros Hls Ht.
  assert (H0 : AuthProvider ls
               = {| auth := {| user := None; token := None; isLoading := false |};
                    localStorage := ls; inflight := 0; requests := [] |}).
  { unfold AuthProvider, tokenEffect. rewrite Hls. reflexivity. }
  rewrite H0.
  match goal with |- context [run ?w0 [Login _ _ _]] =>
    destruct (login_fresh w0 email password t eq_refl Ht) as (Ha1 & Hl1 & Hi1 & Hr1);
    remember (fst (login email password (Fulfilled t) w0)) as w1 eqn:E1
  end.
  cbn in Ha1, Hl1, Hi1, Hr1.
  destruct (fetchUser_settle_fulfilled u w1) as (Ha2 & _ & Hi2 & Hr2).
  exists w1, (fetchUser_settle (Fulfilled u) w1).
  split; [cbn [run step]; now rewrite E1|].
  split; [cbn [run step]; now rewrite Hi1|].
  split; [rewrite Hl1; apply lookup_insert_eq|].
  split; [exact Hi1|].
  split; [rewrite Ha1; intros []; eexists; split; reflexivity|].
  split; [now rewrite Ha2, Ha1|].
  split; [now rewrite Hi2, Hi1|].
  split; [now rewrite Hr2, Hr1|].
  rewrite Ha2. intros []; eexists; split; reflexivity.
Qed.

Lemma sign_in_end_to_end_witness :
  (∅ : gmap string string) !! "fage_token" = None
  /\ truthy (Some "tok") = true
  /\ exists w1 w2 : World,
      run (AuthProvider ∅) [Login "ana@example.com" "pw" (Fulfilled "tok")] = Some w1
      /\ run w1 [ProfileSettled (Fulfilled sampleUser)] = Some w2
      /\ localStorage w1 !! "fage_token" = Some "tok"
      /\ inflight w1 = 1%nat
      /\ (forall loc, exists s,
            settle 2 loc (auth w1) = Some (Show s) /\ isProtected s = false)
      /\ auth w2 = {| user := Some sampleUser; token := Some "tok"; isLoading := false |}
      /\ inflight w2 = 0%nat
      /\ requests w2 = [POST "/auth/login" (LoginBody "ana@example.com" "pw");
                        GET "/auth/me"]
      /\ (forall loc, exists s,
            settle 2 loc (auth w2) = Some (Show s) /\ isProtected s = true).
Proof.
  split; [reflexivity|]. split; [reflexivity|].
  apply (sign_in_end_to_end ∅ "ana@example.com" "pw" "tok" sampleUser); reflexivity.
Defined.

(** X22.  Signing out of a session that is not loading evicts at once and
    without the network: right after [logout] every address leads to the
    sign-in or the sign-up form, and no request was sent. *)
Theorem logout_evicts (w : World) :
  isLoading (auth w) = false ->
  ProtectedRoute (auth (logout w)) = Navigate "/login" true
  /\ (forall loc, exists s,
        settle 2 loc (auth (logout w)) = Some (Show s) /\ isProtected s = false)
  /\ requests (logout w) = requests w.
Proof.
  intro Hl.
  destruct (logout_clears w) as (Hu & Ht & _ & _ & Hr).
  assert (Hl' : isLoading (auth (logout w)) = false).
  { destruct (isLoading (auth (logout w))) eqn:E; [|reflexivity].
    unfold logout in E. apply rerender_isLoading in E. cbn in E.
    rewrite Hl in E. discriminate E. }
  destruct (auth (logout w)) as [u t l]. cbn in Hu, Ht, Hl'. subst u t l.
  split; [reflexivity|]. split; [|exact Hr].
  intros []; eexists; split; reflexivity.
Qed.

Lemma logout_evicts_witness :
  isLoading (auth {| auth := {| user := Some sampleUser; token := Some "tok";
                               isLoading := false |};
                     localStorage := {[ "fage_token" := "tok" ]};
                     inflight := 0; requests := [] |}) = false
  /\ ProtectedRoute
       (auth (logout {| auth := {| user := Some sampleUser; token := Some "tok";
                                   isLoading := false |};
                        localStorage := {[ "fage_token" := "tok" ]};
                        inflight := 0; requests := [] |}))
     = Navigate "/login" true.
Proof.
  split; [reflexivity|].
  apply (logout_evicts {| auth := {| user := Some sampleUser; token := Some "tok";
                                     isLoading := false |};
                          localStorage := {[ "fage_token" := "tok" ]};
                          inflight := 0; requests := [] |}).
  reflexivity.
Defined.
End EndToEnd.

Lemma token_mirrors_storage_witness :
  let w := {| AuthContext.auth :=
                {| AuthContext.user := None; AuthContext.token := Some "new";
                   AuthContext.isLoading := true |};
              AuthContext.localStorage := {[ "fage_token" := "new" ]};
              AuthContext.inflight := 2;
              AuthContext.requests :=
                [GET "/auth/me";
                 POST "/auth/login" (LoginBody "ana@example.com" "pw");
                 GET "/auth/me"] |} in
  AuthContext.run (AuthContext.AuthProvider {[ "fage_token" := "old" ]})
    [AuthContext.Login "ana@example.com" "pw" (Fulfilled "new")] = Some w
  /\ AuthContext.token (AuthContext.auth w)
     = AuthContext.localStorage w !! "fage_token".
Proof.
  cbn zeta. split; [vm_compute; reflexivity|].
  apply (token_mirrors_storage {[ "fage_token" := "old" ]}
           [AuthContext.Login "ana@example.com" "pw" (Fulfilled "new")]).
  vm_compute; reflexivity.
Defined.
